(** * PicoPannel: the DMX512 transmit and receive drivers of [src/dmx.py]

    A shallow embedding of the two driver classes [DMX_TX] and [DMX_RX]
    together with the small part of the MicroPython runtime they lean on:
    the [bytearray] that holds a universe, the PIO state machine, the DMA
    channel and the periodic timer.

    Conventions.
    - Python integers are unbounded, so counters and indices are [Z].
    - A method of a class is a computation in the monad [M self A]: it takes
      the object, and gives back either a value or a raised exception,
      together with the object as the method left it.  An exception raised in
      the middle of a method keeps the assignments made before it.
    - The peripherals (pin, state machine, DMA channel, timer) are records
      of the registers the driver programs; their own argument checks and
      their electrical behaviour are outside the driver. *)

From stdpp Require Import base list.
From Stdlib Require Import ZArith String Ascii DecimalString Lia.

Open Scope Z_scope.

(** ** Exceptions and the method monad *)

Inductive exn : Set :=
| ValueError
| IndexError
| AttributeError.

Inductive result (A : Type) : Type :=
| Ok (a : A)
| Raise (e : exn).
Arguments Ok {A} a.
Arguments Raise {A} e.

Definition result_bind {A B} (r : result A) (k : A -> result B) : result B :=
  match r with
  | Ok a => k a
  | Raise e => Raise e
  end.

Definition M (S A : Type) : Type := S -> result A * S.

Definition ret {S A} (a : A) : M S A := fun s => (Ok a, s).
Definition raise {S A} (e : exn) : M S A := fun s => (Raise e, s).
Definition bind {S A B} (c : M S A) (k : A -> M S B) : M S B :=
  fun s => match c s with
           | (Ok a, s') => k a s'
           | (Raise e, s') => (Raise e, s')
           end.
Definition gets {S A} (f : S -> A) : M S A := fun s => (Ok (f s), s).
Definition modify {S} (f : S -> S) : M S unit := fun s => (Ok tt, f s).
Definition lift {S A} (r : result A) : M S A := fun s => (r, s).

(** Reading an attribute that was never assigned raises [AttributeError]. *)
Definition attr {S A} (f : S -> option A) : M S A :=
  fun s => match f s with
           | Some a => (Ok a, s)
           | None => (Raise AttributeError, s)
           end.

Declare Scope method_scope.
Delimit Scope method_scope with method.
Notation "x <- c ;; k" := (bind c (fun x => k))
  (at level 100, c at next level, right associativity) : method_scope.
Notation "c ;;; k" := (bind c (fun _ => k))
  (at level 100, right associativity) : method_scope.

(** ** The Python runtime: [bytearray]

    Item access follows the sequence protocol: a negative index counts from
    the end, and an index that is still outside the array after that
    adjustment raises [IndexError].  Storing an integer differs between the
    two interpreters: CPython refuses a value outside [0,255] with
    [ValueError] (and looks at the value before the index), MicroPython,
    on which the drivers run, keeps the low eight bits. *)

Inductive runtime : Set := CPython | MicroPython.

Module bytearray.

Record t : Type := mk {
  addr : Z;              (* what [uctypes.addressof] gives *)
  items : list Z
}.

Definition len (b : t) : Z := Z.of_nat (List.length (items b)).

(** [bytearray([0 for _ in range(n)])], allocated at [heap]. *)
Definition zeros (heap n : Z) : t :=
  {| addr := heap; items := replicate (Z.to_nat n) 0 |}.

Definition get_index (b : t) (i : Z) : result nat :=
  let j := if i <? 0 then i + len b else i in
  if (j <? 0) || (len b <=? j) then Raise IndexError else Ok (Z.to_nat j).

Definition getitem (b : t) (i : Z) : result Z :=
  result_bind (get_index b i) (fun k =>
    match items b !! k with
    | Some v => Ok v
    | None => Raise IndexError
    end).

Definition getbytevalue (v : Z) : result Z :=
  if (v <? 0) || (255 <? v) then Raise ValueError else Ok v.

Definition store (b : t) (k : nat) (v : Z) : t :=
  {| addr := addr b; items := <[k := v]> (items b) |}.

Definition setitem (py : runtime) (b : t) (i v : Z) : result t :=
  match py with
  | MicroPython =>
      result_bind (get_index b i) (fun k => Ok (store b k (v mod 256)))
  | CPython =>
      result_bind (getbytevalue v) (fun x =>
      result_bind (get_index b i) (fun k => Ok (store b k x)))
  end.

Definition is_byte (v : Z) : Prop := 0 <= v <= 255.

End bytearray.

(** ** The peripherals *)

Module Pin.
Inductive mode : Set := IN | OUT.
Inductive pull : Set := PULL_UP.
Record t : Set := mk { id : Z; dir : mode; pulled : option pull }.
End Pin.

Module StateMachine.

Inductive program : Set := dmx_out | dmx_in.

Record t : Set := mk {
  id : Z;
  prog : program;
  freq : Z;
  in_base : option Pin.t;
  jmp_pin : option Pin.t;
  sideset_base : option Pin.t;
  out_base : option Pin.t;
  irq_handler : bool;     (* a handler is registered *)
  is_active : bool;
  restarts : nat;         (* how often [restart] was called *)
  fifo : list Z           (* words given to [put], oldest first *)
}.

Definition new (id : Z) (p : program) (f : Z)
    (ib jp sb ob : option Pin.t) : t :=
  mk id p f ib jp sb ob false false 0 [].

Definition irq (sm : t) : t :=
  mk (id sm) (prog sm) (freq sm) (in_base sm) (jmp_pin sm)
     (sideset_base sm) (out_base sm) true (is_active sm) (restarts sm)
     (fifo sm).

Definition active (v : bool) (sm : t) : t :=
  mk (id sm) (prog sm) (freq sm) (in_base sm) (jmp_pin sm)
     (sideset_base sm) (out_base sm) (irq_handler sm) v (restarts sm)
     (fifo sm).

Definition restart (sm : t) : t :=
  mk (id sm) (prog sm) (freq sm) (in_base sm) (jmp_pin sm)
     (sideset_base sm) (out_base sm) (irq_handler sm) (is_active sm)
     (S (restarts sm)) (fifo sm).

Definition put (w : Z) (sm : t) : t :=
  mk (id sm) (prog sm) (freq sm) (in_base sm) (jmp_pin sm)
     (sideset_base sm) (out_base sm) (irq_handler sm) (is_active sm)
     (restarts sm) (fifo sm ++ [w]).

End StateMachine.

Module dma.

(** Modelled from the spec: the module [dma] (class [DmaChannel]) is not
    among the sources.  Following the interface of the bulk transfer
    engine, a channel is the set of registers the driver programs: the
    two address-increment switches, the transfer request source, and the
    armed transfer (source address, destination address, count, trigger).
    A fresh channel increments both addresses and has nothing armed. *)
Record DmaChannel : Set := mk {
  id : Z;
  read_incr : bool;
  write_incr : bool;
  treq : option Z;
  read_addr : Z;
  write_addr : Z;
  count : Z;
  triggered : bool
}.

Definition new (id : Z) : DmaChannel := mk id true true None 0 0 0 false.

Definition NoWriteIncr (c : DmaChannel) : DmaChannel :=
  mk (id c) (read_incr c) false (treq c) (read_addr c) (write_addr c)
     (count c) (triggered c).

Definition NoReadIncr (c : DmaChannel) : DmaChannel :=
  mk (id c) false (write_incr c) (treq c) (read_addr c) (write_addr c)
     (count c) (triggered c).

Definition SetTREQ (r : Z) (c : DmaChannel) : DmaChannel :=
  mk (id c) (read_incr c) (write_incr c) (Some r) (read_addr c)
     (write_addr c) (count c) (triggered c).

Definition SetChannelData (src dst n : Z) (trigger : bool)
    (c : DmaChannel) : DmaChannel :=
  mk (id c) (read_incr c) (write_incr c) (treq c) src dst n trigger.

End dma.

Module Timer.
(** The callback is always the transmitter's [restart]. *)
Record t : Set := mk { period : Z; running : bool }.
Definition new (p : Z) : t := mk p true.
Definition deinit (tm : t) : t := mk (period tm) false.
End Timer.

(** The two queue addresses the drivers hard-code. *)
Definition PIO0_TXF0 : Z := 0x50200010.
Definition PIO1_RXF0_LSB : Z := 0x50200027.

(** ** String formatting

    [str_int z] is [str(z)], [fmt_3 z] is the format spec [{z:3}] (right
    aligned in a field of three, padded with spaces) and [fmt_03 z] is
    [{z:03}] (padded with zeros after the sign).  A number wider than the
    field is printed in full. *)

Definition nl : string := String (ascii_of_nat 10) EmptyString.

Fixpoint fill (c : ascii) (n : nat) : string :=
  match n with
  | O => EmptyString
  | S n' => String c (fill c n')
  end.

Definition str_int (z : Z) : string := NilEmpty.string_of_int (Z.to_int z).

Definition fmt_3 (z : Z) : string :=
  let s := str_int z in
  (fill " " (3 - String.length s) ++ s)%string.

Definition fmt_03 (z : Z) : string :=
  if z <? 0 then
    let d := str_int (- z) in
    ("-" ++ fill "0" (2 - String.length d) ++ d)%string
  else
    let d := str_int z in
    (fill "0" (3 - String.length d) ++ d)%string.

(** [for chan in range(n): result = body(result, chan)], stopping at the
    first exception. *)
Fixpoint for_range {A} (body : A -> Z -> result A) (chan : Z) (n : nat)
    (acc : A) : result A :=
  match n with
  | O => Ok acc
  | S n' => result_bind (body acc chan) (for_range body (chan + 1) n')
  end.

(** ** The transmitter *)

Module DMX_TX.

Record obj : Type := mk {
  channels : bytearray.t;
  _pin : Pin.t;
  _sm : StateMachine.t;
  _dma : dma.DmaChannel;
  timer_count : option Z;      (* assigned by [start] only *)
  t : option Timer.t           (* assigned by [start] only *)
}.

Definition set_channels (b : bytearray.t) (self : obj) : obj :=
  mk b (_pin self) (_sm self) (_dma self) (timer_count self) (t self).
Definition set_sm (f : StateMachine.t -> StateMachine.t) (self : obj) : obj :=
  mk (channels self) (_pin self) (f (_sm self)) (_dma self)
     (timer_count self) (t self).
Definition set_dma (f : dma.DmaChannel -> dma.DmaChannel) (self : obj) : obj :=
  mk (channels self) (_pin self) (_sm self) (f (_dma self))
     (timer_count self) (t self).
Definition set_timer_count (n : Z) (self : obj) : obj :=
  mk (channels self) (_pin self) (_sm self) (_dma self) (Some n) (t self).
Definition set_t (tm : Timer.t) (self : obj) : obj :=
  mk (channels self) (_pin self) (_sm self) (_dma self)
     (timer_count self) (Some tm).

(** [__init__(self, pin, universe_size=512, statemachine=0, dmachannel=0)];
    [heap] is where the runtime places the new bytearray. *)
Definition __init__ (heap pin universe_size statemachine dmachannel : Z)
    : result obj :=
  if (universe_size <? 1) || (512 <? universe_size) then Raise ValueError
  else
    let channels := bytearray.zeros heap (universe_size + 1) in
    let p := Pin.mk pin Pin.OUT (Some Pin.PULL_UP) in
    let sm := StateMachine.new statemachine StateMachine.dmx_out 1000000
                None None (Some p) (Some p) in
    let d := dma.new dmachannel in
    let d := dma.NoWriteIncr d in
    let d := dma.SetTREQ 0 d in
    Ok (mk channels p sm d None None).

Definition start (period : Z) : M obj unit :=
  (modify (set_timer_count 0) ;;;
   modify (set_t (Timer.new period)))%method.

Definition pause : M obj unit :=
  (tm <- attr t ;;
   modify (set_t (Timer.deinit tm)) ;;;
   modify (set_sm (StateMachine.active false)))%method.

Definition restart : M obj unit :=
  (modify (set_sm (StateMachine.active true)) ;;;
   modify (set_sm StateMachine.restart) ;;;
   b <- gets channels ;;
   modify (set_dma (dma.SetChannelData (bytearray.addr b) PIO0_TXF0
                      (bytearray.len b) true)) ;;;
   n <- attr timer_count ;;
   modify (set_timer_count (n + 1)))%method.

(** The body of the loop of [__str__]; [res] is the source's [result]. *)
Definition str_body (b : bytearray.t) (res : string) (chan : Z)
    : result string :=
  let res :=
    if chan mod 20 =? 1 then (res ++ nl ++ fmt_03 chan ++ ":")%string
    else res in
  let res :=
    if chan mod 5 =? 1 then (res ++ "  ")%string else res in
  result_bind (bytearray.getitem b chan) (fun v =>
  let res :=
    if chan =? 0 then ("Start code: " ++ str_int v)%string
    else (res ++ " " ++ fmt_3 v)%string in
  let res :=
    if chan mod 100 =? 0 then (res ++ nl)%string else res in
  Ok res).

Definition __str__ : M obj string :=
  (b <- gets channels ;;
   res <- lift (for_range (str_body b) 0
                  (Z.to_nat (bytearray.len b)) EmptyString) ;;
   ret (res ++ nl)%string)%method.

(** What the application does with the public attribute [channels]:
    [self.channels[i]] and [self.channels[i] = v]. *)
Definition channel (i : Z) : M obj Z :=
  (b <- gets channels ;; lift (bytearray.getitem b i))%method.

Definition set_channel (py : runtime) (i v : Z) : M obj unit :=
  (b <- gets channels ;;
   b' <- lift (bytearray.setitem py b i v) ;;
   modify (set_channels b'))%method.

Definition tick_count : M obj Z := attr timer_count.

(** Everything that can happen to a transmitter once it is built: the
    calls of the application, and the timer firing its callback.  The
    transfer engine only reads the universe, so its work is no event. *)
Inductive event : Set :=
| Start (period : Z)
| Pause
| Tick
| Get (i : Z)
| Set_ (i v : Z)
| Str.

Definition step (py : runtime) (e : event) (self : obj) : obj :=
  match e with
  | Start p => snd (start p self)
  | Pause => snd (pause self)
  | Tick => snd (restart self)
  | Get i => snd (channel i self)
  | Set_ i v => snd (set_channel py i v self)
  | Str => snd (__str__ self)
  end.

Definition run (py : runtime) (es : list event) (self : obj) : obj :=
  fold_left (fun s e => step py e s) es self.

End DMX_TX.

(** ** The receiver *)

Module DMX_RX.

Record obj : Type := mk {
  channels : bytearray.t;
  _pin : Pin.t;
  _debugpin : Pin.t;
  _sm : StateMachine.t;
  frames_received : Z;
  _dma : dma.DmaChannel
}.

Definition set_channels (b : bytearray.t) (self : obj) : obj :=
  mk b (_pin self) (_debugpin self) (_sm self) (frames_received self)
     (_dma self).
Definition set_sm (f : StateMachine.t -> StateMachine.t) (self : obj) : obj :=
  mk (channels self) (_pin self) (_debugpin self) (f (_sm self))
     (frames_received self) (_dma self).
Definition set_dma (f : dma.DmaChannel -> dma.DmaChannel) (self : obj) : obj :=
  mk (channels self) (_pin self) (_debugpin self) (_sm self)
     (frames_received self) (f (_dma self)).
Definition set_frames_received (n : Z) (self : obj) : obj :=
  mk (channels self) (_pin self) (_debugpin self) (_sm self) n (_dma self).

Section Init.

(** The constant [dma.TREQ_PIO1_RX] belongs to the absent module. *)
Variable TREQ_PIO1_RX : Z.

(** [__init__(self, pin, statemachine=4, dmachannel=1, num_channels=512)].
    There is no statement that can raise: the result is always [Ok]. *)
Definition __init__ (heap pin statemachine dmachannel num_channels : Z)
    : result obj :=
  let channels := bytearray.zeros heap (num_channels + 1) in
  let p := Pin.mk pin Pin.IN None in
  let dbg := Pin.mk 12 Pin.OUT (Some Pin.PULL_UP) in
  let sm := StateMachine.new statemachine StateMachine.dmx_in 1000000
              (Some p) (Some p) (Some dbg) None in
  let sm := StateMachine.irq sm in
  let d := dma.new dmachannel in
  let d := dma.NoReadIncr d in
  let d := dma.SetTREQ TREQ_PIO1_RX d in
  Ok (mk channels p dbg sm 0 d).

End Init.

Definition start : M obj unit :=
  (b <- gets channels ;;
   modify (set_dma (dma.SetChannelData PIO1_RXF0_LSB (bytearray.addr b)
                      (bytearray.len b) true)) ;;;
   modify (set_sm StateMachine.restart) ;;;
   modify (set_sm (StateMachine.put (bytearray.len b - 1))) ;;;
   modify (set_sm (StateMachine.active true)))%method.

Definition pause : M obj unit :=
  modify (set_sm (StateMachine.active false)).

Definition IRQ_from_PIO : M obj unit :=
  (b <- gets channels ;;
   modify (set_dma (dma.SetChannelData PIO1_RXF0_LSB (bytearray.addr b)
                      (bytearray.len b) true)) ;;;
   n <- gets frames_received ;;
   modify (set_frames_received (n + 1)))%method.

(** The body of the loop of [__str__]; [res] is the source's [result]. *)
Definition str_body (b : bytearray.t) (res : string) (chan : Z)
    : result string :=
  let res :=
    if chan mod 20 =? 1 then (res ++ nl ++ fmt_03 chan ++ ":")%string
    else res in
  let res :=
    if chan mod 5 =? 1 then (res ++ "  ")%string else res in
  result_bind (bytearray.getitem b chan) (fun v =>
  let res :=
    if chan =? 0 then ("Start code: " ++ str_int v)%string
    else (res ++ fmt_3 v)%string in
  let res :=
    if chan mod 100 =? 0 then (res ++ nl)%string else res in
  Ok res).

Definition __str__ : M obj string :=
  (b <- gets channels ;;
   res <- lift (for_range (str_body b) 0
                  (Z.to_nat (bytearray.len b)) EmptyString) ;;
   ret (res ++ nl)%string)%method.

Definition channel (i : Z) : M obj Z :=
  (b <- gets channels ;; lift (bytearray.getitem b i))%method.

Definition set_channel (py : runtime) (i v : Z) : M obj unit :=
  (b <- gets channels ;;
   b' <- lift (bytearray.setitem py b i v) ;;
   modify (set_channels b'))%method.

Definition frame_count : M obj Z := gets frames_received.

(** The transfer engine at work: while a transfer is armed it moves the
    [k]-th byte of the frame, [k] below the armed count, from the queue
    to the destination address, which advances with [k] when the
    destination increments.  The queue delivers eight bits.  A byte whose
    address lies outside the universe does not touch it. *)
Definition dma_byte (k w : Z) (self : obj) : obj :=
  let d := _dma self in
  let b := channels self in
  if dma.triggered d && (0 <=? k) && (k <? dma.count d) then
    let a := dma.write_addr d + (if dma.write_incr d then k else 0) in
    let off := a - bytearray.addr b in
    if (0 <=? off) && (off <? bytearray.len b)
    then set_channels (bytearray.store b (Z.to_nat off) (w mod 256)) self
    else self
  else self.

(** The transfer engine done: it has moved the bytes it was armed for and
    raises its completion.  Nothing is armed any more: the count is used
    up and each incrementing address stands past the last byte.  The model
    does not count the bytes as they move, so completion may come at any
    point of an armed transfer; every run of the real engine is among the
    modelled ones. *)
Definition dma_complete (self : obj) : obj :=
  let d := _dma self in
  if dma.triggered d then
    set_dma (fun _ =>
      dma.mk (dma.id d) (dma.read_incr d) (dma.write_incr d) (dma.treq d)
        (dma.read_addr d + (if dma.read_incr d then dma.count d else 0))
        (dma.write_addr d + (if dma.write_incr d then dma.count d else 0))
        0 false) self
  else self.

(** Whether an armed transfer can only write inside the universe. *)
Definition dma_in_bounds (self : obj) : Prop :=
  dma.triggered (_dma self) = true ->
  dma.write_addr (_dma self) = bytearray.addr (channels self) /\
  dma.count (_dma self) = bytearray.len (channels self).

(** Everything that can happen to a receiver once it is built: the calls
    of the application, the frame-boundary interrupt, the transfer engine
    storing one received byte, and the transfer engine completing. *)
Inductive event : Set :=
| Start
| Pause
| Irq
| Get (i : Z)
| Set_ (i v : Z)
| Str
| Dma (k w : Z)
| Complete.

Definition step (py : runtime) (e : event) (self : obj) : obj :=
  match e with
  | Start => snd (start self)
  | Pause => snd (pause self)
  | Irq => snd (IRQ_from_PIO self)
  | Get i => snd (channel i self)
  | Set_ i v => snd (set_channel py i v self)
  | Str => snd (__str__ self)
  | Dma k w => dma_byte k w self
  | Complete => dma_complete self
  end.

Definition run (py : runtime) (es : list event) (self : obj) : obj :=
  fold_left (fun s e => step py e s) es self.


End DMX_RX.

(** ** Vocabulary of the statements *)

(** The shape every universe keeps: [n] bytes at a fixed address. *)
Definition universe (heap n : Z) (b : bytearray.t) : Prop :=
  bytearray.addr b = heap /\ bytearray.len b = n /\
  Forall bytearray.is_byte (bytearray.items b).


Definition is_start (e : DMX_TX.event) : bool :=
  match e with
  | DMX_TX.Start _ => true
  | _ => false
  end.

(** How many frames complete in a run of events. *)
Fixpoint frames (es : list DMX_RX.event) : Z :=
  match es with
  | [] => 0
  | DMX_RX.Irq :: es' => 1 + frames es'
  | _ :: es' => frames es'
  end.

(** The universes a driver built for [s] channels at [heap] can come to
    hold: what the constructor made, after any run of events.  A receiver
    is taken with a size the data model allows. *)
Definition tx_channels (py : runtime) (heap s : Z) (b : bytearray.t) : Prop :=
  exists pin statemachine dmachannel tx0 es,
    DMX_TX.__init__ heap pin s statemachine dmachannel = Ok tx0 /\
    b = DMX_TX.channels (DMX_TX.run py es tx0).

Definition rx_channels (py : runtime) (heap s : Z) (b : bytearray.t) : Prop :=
  1 <= s <= 512 /\
  exists treq pin statemachine dmachannel rx0 es,
    DMX_RX.__init__ treq heap pin statemachine dmachannel s = Ok rx0 /\
    b = DMX_RX.channels (DMX_RX.run py es rx0).

Definition driver_channels (py : runtime) (heap s : Z) (b : bytearray.t)
    : Prop :=
  tx_channels py heap s b \/ rx_channels py heap s b.

(** What [str] gives for a driver built for [s] channels and taken through
    the events [es], and the items its universe then holds. *)
Definition tx_dump (s : Z) (es : list DMX_TX.event) : result string :=
  result_bind (DMX_TX.__init__ 0x20001000 2 s 0 0) (fun tx =>
    fst (DMX_TX.__str__ (DMX_TX.run MicroPython es tx))).

Definition rx_dump (s : Z) (es : list DMX_RX.event) : result string :=
  result_bind (DMX_RX.__init__ 12 0x20001000 28 4 1 s) (fun rx =>
    fst (DMX_RX.__str__ (DMX_RX.run MicroPython es rx))).

Definition tx_items (s : Z) (es : list DMX_TX.event) : result (list Z) :=
  result_bind (DMX_TX.__init__ 0x20001000 2 s 0 0) (fun tx =>
    Ok (bytearray.items (DMX_TX.channels (DMX_TX.run MicroPython es tx)))).

Definition rx_items (s : Z) (es : list DMX_RX.event) : result (list Z) :=
  result_bind (DMX_RX.__init__ 12 0x20001000 28 4 1 s) (fun rx =>
    Ok (bytearray.items (DMX_RX.channels (DMX_RX.run MicroPython es rx)))).

(** Whether the text [pat] occurs in [s]. *)
Definition occurs (pat s : string) : bool :=
  match String.index 0 pat s with
  | Some _ => true
  | None => false
  end.

Definition dump_has (r : result string) (f : string -> bool) : bool :=
  match r with
  | Ok s => f s
  | Raise _ => false
  end.

Definition dump_length (r : result string) : nat :=
  match r with
  | Ok s => String.length s
  | Raise _ => 0
  end.

(** ** The polling loop of [test_rx]

    [test_rx] builds a receiver with [DMX_RX(pin=28, statemachine=1)],
    starts it and then polls it for ever.  The interrupt handler and the
    transfer engine preempt the loop: [hw k] is what they do just before
    the [k]-th statement of one pass (the six reads of the universe, then
    the read of the frame counter). *)

Definition interrupted (py : runtime) (hw : list DMX_RX.event)
    : M DMX_RX.obj unit :=
  modify (DMX_RX.run py hw).

(** All that preempts one pass, in order. *)
Definition pass_events (hw : nat -> list DMX_RX.event) : list DMX_RX.event :=
  hw 0%nat ++ hw 1%nat ++ hw 2%nat ++ hw 3%nat ++ hw 4%nat ++ hw 5%nat
    ++ hw 6%nat.

Definition test_rx_line (brightness red green blue fade speed : Z) : string :=
  ("Received fader:" ++ str_int brightness ++ "  R:" ++ str_int red ++
   " G:" ++ str_int green ++ " B:" ++ str_int blue ++
   " B:" ++ str_int fade ++ " B:" ++ str_int speed)%string.

(** One pass of the loop: the local [last_frame] goes in, its new value
    comes out with the line printed, if any. *)
Definition test_rx_pass (py : runtime) (hw : nat -> list DMX_RX.event)
    (dmx_start last_frame : Z) : M DMX_RX.obj (Z * option string) :=
  (interrupted py (hw 0%nat) ;;;
   brightness <- DMX_RX.channel (dmx_start + 0) ;;
   interrupted py (hw 1%nat) ;;;
   red <- DMX_RX.channel (dmx_start + 1) ;;
   interrupted py (hw 2%nat) ;;;
   green <- DMX_RX.channel (dmx_start + 2) ;;
   interrupted py (hw 3%nat) ;;;
   blue <- DMX_RX.channel (dmx_start + 3) ;;
   interrupted py (hw 4%nat) ;;;
   fade <- DMX_RX.channel (dmx_start + 4) ;;
   interrupted py (hw 5%nat) ;;;
   speed <- DMX_RX.channel (dmx_start + 5) ;;
   interrupted py (hw 6%nat) ;;;
   current_frame <- DMX_RX.frame_count ;;
   if negb (current_frame =? last_frame)
   then ret (current_frame,
             Some (test_rx_line brightness red green blue fade speed))
   else ret (last_frame, None))%method.

(** As many passes of [while True] as [sched] is long: the lines printed,
    and the exception that ended the loop, if one did. *)
Fixpoint test_rx_loop (py : runtime) (sched : list (nat -> list DMX_RX.event))
    (dmx_start last_frame : Z) (dmx_in : DMX_RX.obj)
    : list string * option exn :=
  match sched with
  | [] => ([], None)
  | hw :: sched' =>
      match test_rx_pass py hw dmx_start last_frame dmx_in with
      | (Ok (last_frame', out), dmx_in') =>
          let (lines, e) :=
            test_rx_loop py sched' dmx_start last_frame' dmx_in' in
          (match out with
           | Some l => l :: lines
           | None => lines
           end, e)
      | (Raise e, _) => ([], Some e)
      end
  end.

Definition test_rx (py : runtime) (TREQ_PIO1_RX heap : Z)
    (sched : list (nat -> list DMX_RX.event)) : list string * option exn :=
  let dmx_start := 0 in
  match DMX_RX.__init__ TREQ_PIO1_RX heap 28 1 1 512 with
  | Raise e => ([], Some e)
  | Ok dmx_in =>
      match DMX_RX.start dmx_in with
      | (Raise e, _) => ([], Some e)
      | (Ok _, dmx_in) => test_rx_loop py sched dmx_start (-1) dmx_in
      end
  end.

(** All that preempts the loop over a whole schedule. *)
Definition sched_events (sched : list (nat -> list DMX_RX.event))
    : list DMX_RX.event :=
  List.concat (map pass_events sched).

(** ** More vocabulary *)

Definition is_set (e : DMX_TX.event) : bool :=
  match e with
  | DMX_TX.Set_ _ _ => true
  | _ => false
  end.

(** How many channel values a dump prints: every item but the start code. *)
Definition printed_channels (b : bytearray.t) : nat :=
  Nat.pred (List.length (bytearray.items b)).

(** The layout of a dump, channel by channel: what goes before the value
    of channel [chan] (the head of a row every twentieth channel, two
    spaces every fifth), and what goes after it (a line break every
    hundredth). *)
Definition row_head (chan : Z) : string :=
  ((if (chan mod 20 =? 1)%Z then nl ++ fmt_03 chan ++ ":" else "") ++
   (if (chan mod 5 =? 1)%Z then "  " else ""))%string.

Definition row_tail (chan : Z) : string :=
  if chan mod 100 =? 0 then nl else EmptyString.

Definition tx_cell (chan v : Z) : string :=
  (row_head chan ++ " " ++ fmt_3 v ++ row_tail chan)%string.

Definition rx_cell (chan v : Z) : string :=
  (row_head chan ++ fmt_3 v ++ row_tail chan)%string.

Fixpoint cells (cell : Z -> Z -> string) (chan : Z) (vs : list Z) : string :=
  match vs with
  | [] => EmptyString
  | v :: vs' => (cell chan v ++ cells cell (chan + 1) vs')%string
  end.

Definition layout (cell : Z -> Z -> string) (items : list Z) : string :=
  match items with
  | [] => nl
  | v0 :: vs =>
      ("Start code: " ++ str_int v0 ++ nl ++ cells cell 1 vs ++ nl)%string
  end.

(** The events that may store into a receiver's universe: an item
    assignment by the application, a byte moved by the transfer engine. *)
Definition is_store (e : DMX_RX.event) : bool :=
  match e with
  | DMX_RX.Set_ _ _ | DMX_RX.Dma _ _ => true
  | _ => false
  end.

(** * Properties *)

(** ** Item access *)

Lemma get_index_inside (b : bytearray.t) (i : Z) :
  0 <= i < bytearray.len b -> bytearray.get_index b i = Ok (Z.to_nat i).
Proof.
  intros Hi. unfold bytearray.get_index.
  destruct (Z.ltb_spec i 0); [lia|].
  destruct (Z.ltb_spec i 0); [lia|].
  destruct (Z.leb_spec (bytearray.len b) i); [lia|]. reflexivity.
Qed.

Lemma get_index_from_end (b : bytearray.t) (i : Z) :
  - bytearray.len b <= i < 0 ->
  bytearray.get_index b i = Ok (Z.to_nat (i + bytearray.len b)).
Proof.
  intros Hi. unfold bytearray.get_index.
  destruct (Z.ltb_spec i 0); [|lia].
  destruct (Z.ltb_spec (i + bytearray.len b) 0); [lia|].
  destruct (Z.leb_spec (bytearray.len b) (i + bytearray.len b)); [lia|].
  reflexivity.
Qed.

Lemma get_index_outside (b : bytearray.t) (i : Z) :
  i < - bytearray.len b \/ bytearray.len b <= i ->
  bytearray.get_index b i = Raise IndexError.
Proof.
  intros Hi. unfold bytearray.get_index.
  assert (0 <= bytearray.len b) by (unfold bytearray.len; lia).
  destruct (Z.ltb_spec i 0).
  - destruct (Z.ltb_spec (i + bytearray.len b) 0); [reflexivity|lia].
  - destruct (Z.ltb_spec i 0); [lia|].
    destruct (Z.leb_spec (bytearray.len b) i); [reflexivity|lia].
Qed.

Lemma get_index_lt (b : bytearray.t) (i : Z) (k : nat) :
  bytearray.get_index b i = Ok k -> (k < List.length (bytearray.items b))%nat.
Proof.
  unfold bytearray.get_index, bytearray.len.
  destruct (i <? 0);
    match goal with
    | |- context [(?j <? 0) || (?n <=? ?j)] =>
        destruct (Z.ltb_spec j 0); destruct (Z.leb_spec n j); simpl
    end; intros [= <-]; lia.
Qed.

Lemma len_store (b : bytearray.t) (k : nat) (v : Z) :
  bytearray.len (bytearray.store b k v) = bytearray.len b.
Proof. unfold bytearray.len, bytearray.store; simpl. now rewrite length_insert. Qed.

Lemma addr_store (b : bytearray.t) (k : nat) (v : Z) :
  bytearray.addr (bytearray.store b k v) = bytearray.addr b.
Proof. reflexivity. Qed.

Lemma bytes_store (b : bytearray.t) (k : nat) (v : Z) :
  bytearray.is_byte v ->
  Forall bytearray.is_byte (bytearray.items b) ->
  Forall bytearray.is_byte (bytearray.items (bytearray.store b k v)).
Proof. intros Hv Hb. simpl. now apply Forall_insert. Qed.

Lemma is_byte_mod (w : Z) : bytearray.is_byte (w mod 256).
Proof. unfold bytearray.is_byte. pose proof (Z.mod_pos_bound w 256). lia. Qed.

Lemma getbytevalue_Ok (v x : Z) :
  bytearray.getbytevalue v = Ok x -> x = v /\ bytearray.is_byte v.
Proof.
  unfold bytearray.getbytevalue, bytearray.is_byte.
  destruct (Z.ltb_spec v 0); destruct (Z.ltb_spec 255 v); simpl;
    intros [= <-]; lia.
Qed.

Lemma getbytevalue_byte (v : Z) :
  bytearray.is_byte v -> bytearray.getbytevalue v = Ok v.
Proof.
  unfold bytearray.getbytevalue, bytearray.is_byte. intros Hv.
  destruct (Z.ltb_spec v 0); [lia|].
  destruct (Z.ltb_spec 255 v); [lia|]. reflexivity.
Qed.

(** A store that succeeds writes one byte at a position inside the array. *)
Lemma setitem_Ok (py : runtime) (b b' : bytearray.t) (i v : Z) :
  bytearray.setitem py b i v = Ok b' ->
  exists (k : nat) (x : Z),
    bytearray.get_index b i = Ok k /\ bytearray.is_byte x /\
    b' = bytearray.store b k x.
Proof.
  destruct py; simpl.
  - destruct (bytearray.getbytevalue v) as [x|] eqn:Hv; simpl; [|discriminate].
    destruct (bytearray.get_index b i) as [k|] eqn:Hk; simpl; [|discriminate].
    intros [= <-]. apply getbytevalue_Ok in Hv as [-> Hv]. eauto.
  - destruct (bytearray.get_index b i) as [k|] eqn:Hk; simpl; [|discriminate].
    intros [= <-]. exists k, (v mod 256). auto using is_byte_mod.
Qed.

(** Storing a byte at a valid position succeeds, whichever interpreter. *)
Lemma setitem_byte (py : runtime) (b : bytearray.t) (i v : Z) (k : nat) :
  bytearray.is_byte v -> bytearray.get_index b i = Ok k ->
  bytearray.setitem py b i v = Ok (bytearray.store b k v).
Proof.
  intros Hv Hk. destruct py; simpl.
  - rewrite getbytevalue_byte by assumption. simpl. now rewrite Hk.
  - rewrite Hk. simpl. rewrite Z.mod_small; [reflexivity|].
    unfold bytearray.is_byte in Hv. lia.
Qed.

Lemma getitem_at (b : bytearray.t) (i : Z) (k : nat) :
  bytearray.get_index b i = Ok k ->
  exists v, bytearray.items b !! k = Some v /\ bytearray.getitem b i = Ok v.
Proof.
  intros Hk. unfold bytearray.getitem. rewrite Hk. simpl.
  destruct (lookup_lt_is_Some_2 (bytearray.items b) k) as [v Hv].
  { now apply get_index_lt with (i := i). }
  exists v. now rewrite Hv.
Qed.

Lemma universe_zeros (heap n : Z) :
  0 <= n -> universe heap n (bytearray.zeros heap n).
Proof.
  intros Hn. repeat split.
  - unfold bytearray.len, bytearray.zeros; simpl.
    rewrite length_replicate. lia.
  - simpl. apply Forall_replicate. unfold bytearray.is_byte. lia.
Qed.

Lemma universe_store (heap n : Z) (b : bytearray.t) (k : nat) (v : Z) :
  bytearray.is_byte v -> universe heap n b ->
  universe heap n (bytearray.store b k v).
Proof.
  intros Hv (Ha & Hl & Hb). repeat split.
  - assumption.
  - now rewrite len_store.
  - now apply bytes_store.
Qed.

Lemma universe_setitem (py : runtime) (heap n : Z) (b b' : bytearray.t)
    (i v : Z) :
  universe heap n b -> bytearray.setitem py b i v = Ok b' ->
  universe heap n b'.
Proof.
  intros Hu Hs. apply setitem_Ok in Hs as (k & x & _ & Hx & ->).
  now apply universe_store.
Qed.

(** Reading inside a universe gives a byte. *)
Lemma universe_getitem (heap n : Z) (b : bytearray.t) (i : Z) :
  universe heap n b -> 0 <= i < n ->
  exists v, bytearray.getitem b i = Ok v /\ bytearray.is_byte v.
Proof.
  intros (_ & Hl & Hb) Hi.
  destruct (getitem_at b i (Z.to_nat i)) as (v & Hv & Hg).
  { apply get_index_inside. lia. }
  exists v. split; [assumption|].
  rewrite Forall_lookup in Hb. eauto.
Qed.

(** ** What each method leaves alone *)

Ltac method :=
  unfold DMX_TX.start, DMX_TX.pause, DMX_TX.restart, DMX_TX.channel,
    DMX_TX.set_channel, DMX_TX.__str__, DMX_TX.tick_count,
    DMX_RX.start, DMX_RX.pause, DMX_RX.IRQ_from_PIO, DMX_RX.channel,
    DMX_RX.set_channel, DMX_RX.__str__, DMX_RX.frame_count,
    bind, modify, gets, attr, lift, ret; cbn.

Lemma tx_str_pure (self : DMX_TX.obj) :
  snd (DMX_TX.__str__ self) = self.
Proof.
  method. now destruct (for_range _ _ _ _).
Qed.

Lemma rx_str_pure (self : DMX_RX.obj) :
  snd (DMX_RX.__str__ self) = self.
Proof.
  method. now destruct (for_range _ _ _ _).
Qed.

Lemma tx_channel_pure (i : Z) (self : DMX_TX.obj) :
  DMX_TX.channel i self =
  (bytearray.getitem (DMX_TX.channels self) i, self).
Proof. method. now destruct (bytearray.getitem _ _). Qed.

Lemma rx_channel_pure (i : Z) (self : DMX_RX.obj) :
  DMX_RX.channel i self =
  (bytearray.getitem (DMX_RX.channels self) i, self).
Proof. method. now destruct (bytearray.getitem _ _). Qed.

Lemma tx_set_channel_eq (py : runtime) (i v : Z) (self : DMX_TX.obj) :
  DMX_TX.set_channel py i v self =
  match bytearray.setitem py (DMX_TX.channels self) i v with
  | Ok b' => (Ok tt, DMX_TX.set_channels b' self)
  | Raise e => (Raise e, self)
  end.
Proof. method. now destruct (bytearray.setitem _ _ _ _). Qed.

Lemma rx_set_channel_eq (py : runtime) (i v : Z) (self : DMX_RX.obj) :
  DMX_RX.set_channel py i v self =
  match bytearray.setitem py (DMX_RX.channels self) i v with
  | Ok b' => (Ok tt, DMX_RX.set_channels b' self)
  | Raise e => (Raise e, self)
  end.
Proof. method. now destruct (bytearray.setitem _ _ _ _). Qed.

(** Only an item assignment changes the transmitter's universe. *)
Lemma tx_step_channels (py : runtime) (e : DMX_TX.event) (self : DMX_TX.obj) :
  DMX_TX.channels (DMX_TX.step py e self) = DMX_TX.channels self \/
  exists i v b',
    e = DMX_TX.Set_ i v /\
    bytearray.setitem py (DMX_TX.channels self) i v = Ok b' /\
    DMX_TX.channels (DMX_TX.step py e self) = b'.
Proof.
  destruct e; cbn [DMX_TX.step DMX_RX.step].
  - left. reflexivity.
  - left. method. now destruct (DMX_TX.t self).
  - left. method. now destruct (DMX_TX.timer_count self).
  - left. now rewrite tx_channel_pure.
  - rewrite tx_set_channel_eq.
    destruct (bytearray.setitem py (DMX_TX.channels self) i v) as [b'|] eqn:Hs.
    + right. exists i, v, b'. auto.
    + left. reflexivity.
  - left. now rewrite tx_str_pure.
Qed.

(** The receiver's universe changes by an item assignment or by a byte the
    transfer engine stores, and by nothing else. *)
Lemma rx_step_channels (py : runtime) (e : DMX_RX.event) (self : DMX_RX.obj) :
  DMX_RX.channels (DMX_RX.step py e self) = DMX_RX.channels self \/
  (exists i v b',
    e = DMX_RX.Set_ i v /\
    bytearray.setitem py (DMX_RX.channels self) i v = Ok b' /\
    DMX_RX.channels (DMX_RX.step py e self) = b') \/
  (exists k w off,
    e = DMX_RX.Dma k w /\
    DMX_RX.channels (DMX_RX.step py e self) =
      bytearray.store (DMX_RX.channels self) off (w mod 256)).
Proof.
  destruct e; cbn [DMX_TX.step DMX_RX.step].
  - left. reflexivity.
  - left. reflexivity.
  - left. reflexivity.
  - left. now rewrite rx_channel_pure.
  - rewrite rx_set_channel_eq.
    destruct (bytearray.setitem py (DMX_RX.channels self) i v) as [b'|] eqn:Hs.
    + right. left. exists i, v, b'. auto.
    + left. reflexivity.
  - left. now rewrite rx_str_pure.
  - unfold DMX_RX.dma_byte.
    destruct (_ && _ && _); [|now left].
    destruct (_ && _); [|now left].
    right. right. eauto.
  - left. unfold DMX_RX.dma_complete.
    now destruct (dma.triggered (DMX_RX._dma self)).
Qed.

Lemma tx_step_universe (py : runtime) (heap n : Z) (e : DMX_TX.event)
    (self : DMX_TX.obj) :
  universe heap n (DMX_TX.channels self) ->
  universe heap n (DMX_TX.channels (DMX_TX.step py e self)).
Proof.
  intros Hu.
  destruct (tx_step_channels py e self) as [-> | (i & v & b' & _ & Hs & ->)].
  - assumption.
  - eapply universe_setitem; eauto.
Qed.

Lemma rx_step_universe (py : runtime) (heap n : Z) (e : DMX_RX.event)
    (self : DMX_RX.obj) :
  universe heap n (DMX_RX.channels self) ->
  universe heap n (DMX_RX.channels (DMX_RX.step py e self)).
Proof.
  intros Hu.
  destruct (rx_step_channels py e self)
    as [-> | [(i & v & b' & _ & Hs & ->) | (k & w & off & _ & ->)]].
  - assumption.
  - eapply universe_setitem; eauto.
  - apply universe_store; [apply is_byte_mod | assumption].
Qed.

Lemma tx_run_universe (py : runtime) (heap n : Z) (es : list DMX_TX.event) :
  forall self : DMX_TX.obj,
    universe heap n (DMX_TX.channels self) ->
    universe heap n (DMX_TX.channels (DMX_TX.run py es self)).
Proof.
  induction es as [|e es IH]; intros self Hu; [assumption|].
  apply IH. now apply tx_step_universe.
Qed.

Lemma rx_run_universe (py : runtime) (heap n : Z) (es : list DMX_RX.event) :
  forall self : DMX_RX.obj,
    universe heap n (DMX_RX.channels self) ->
    universe heap n (DMX_RX.channels (DMX_RX.run py es self)).
Proof.
  induction es as [|e es IH]; intros self Hu; [assumption|].
  apply IH. now apply rx_step_universe.
Qed.

(** Construction. *)
Lemma tx_init_Ok (heap pin s statemachine dmachannel : Z) (tx : DMX_TX.obj) :
  DMX_TX.__init__ heap pin s statemachine dmachannel = Ok tx ->
  1 <= s <= 512 /\
  DMX_TX.channels tx = bytearray.zeros heap (s + 1) /\
  DMX_TX.timer_count tx = None /\ DMX_TX.t tx = None /\
  DMX_TX._dma tx = dma.SetTREQ 0 (dma.NoWriteIncr (dma.new dmachannel)).
Proof.
  unfold DMX_TX.__init__.
  destruct (Z.ltb_spec s 1); destruct (Z.ltb_spec 512 s); simpl;
    try discriminate.
  intros [= <-]. simpl. repeat split; lia.
Qed.

Lemma tx_init_valid (heap pin s statemachine dmachannel : Z) :
  1 <= s <= 512 ->
  exists tx, DMX_TX.__init__ heap pin s statemachine dmachannel = Ok tx.
Proof.
  intros Hs. unfold DMX_TX.__init__.
  destruct (Z.ltb_spec s 1); [lia|].
  destruct (Z.ltb_spec 512 s); [lia|]. simpl. eauto.
Qed.

Lemma rx_init_Ok (treq heap pin statemachine dmachannel n : Z)
    (rx : DMX_RX.obj) :
  DMX_RX.__init__ treq heap pin statemachine dmachannel n = Ok rx ->
  DMX_RX.channels rx = bytearray.zeros heap (n + 1) /\
  DMX_RX.frames_received rx = 0 /\
  DMX_RX._dma rx = dma.SetTREQ treq (dma.NoReadIncr (dma.new dmachannel)).
Proof. intros [= <-]. simpl. auto. Qed.

(** ** The transmitter's timer and tick counter *)



(** The timer object exists exactly when [start] was called before. *)
Lemma tx_step_t (py : runtime) (e : DMX_TX.event) (self : DMX_TX.obj) :
  DMX_TX.t (DMX_TX.step py e self) = None <->
  DMX_TX.t self = None /\ is_start e = false.
Proof.
  destruct e; cbn [DMX_TX.step is_start].
  - cbn. intuition discriminate.
  - method. destruct (DMX_TX.t self) eqn:E; cbn; [|rewrite E];
      intuition discriminate.
  - method. destruct (DMX_TX.timer_count self); cbn; intuition.
  - rewrite tx_channel_pure. cbn. intuition.
  - rewrite tx_set_channel_eq.
    destruct (bytearray.setitem _ _ _ _); cbn; intuition.
  - rewrite tx_str_pure. intuition.
Qed.

Lemma tx_run_t (py : runtime) (es : list DMX_TX.event) :
  forall self : DMX_TX.obj,
    DMX_TX.t (DMX_TX.run py es self) = None <->
    DMX_TX.t self = None /\ existsb is_start es = false.
Proof.
  induction es as [|e es IH]; intros self; cbn [DMX_TX.run fold_left existsb].
  - intuition.
  - fold (DMX_TX.run py es (DMX_TX.step py e self)).
    rewrite IH, tx_step_t, orb_false_iff. intuition.
Qed.

(** * The transmitter *)

(** C5. For every universe size [s] from 1 to 512 the transmitter's
    constructor succeeds and its universe has exactly [s+1] bytes, all of
    them zero; for every [s] below 1 or above 512 the constructor raises
    the configuration error ([ValueError]) and no object is built. *)
Theorem tx_init_universe (heap pin s statemachine dmachannel : Z) :
  (1 <= s <= 512 ->
   exists tx,
     DMX_TX.__init__ heap pin s statemachine dmachannel = Ok tx /\
     bytearray.len (DMX_TX.channels tx) = s + 1 /\
     Forall (fun v => v = 0) (bytearray.items (DMX_TX.channels tx))) /\
  (s < 1 \/ 512 < s ->
   DMX_TX.__init__ heap pin s statemachine dmachannel = Raise ValueError).
Proof.
  split.
  - intros Hs. destruct (tx_init_valid heap pin s statemachine dmachannel Hs)
      as [tx Htx].
    exists tx. split; [assumption|].
    apply tx_init_Ok in Htx as (_ & -> & _). split.
    + unfold bytearray.len, bytearray.zeros; simpl.
      rewrite length_replicate. lia.
    + simpl. now apply Forall_replicate.
  - intros Hs. unfold DMX_TX.__init__.
    destruct (Z.ltb_spec s 1); [reflexivity|].
    destruct (Z.ltb_spec 512 s); [reflexivity|]. lia.
Qed.

Lemma tx_init_universe_witness :
  (exists tx,
     DMX_TX.__init__ 0x20001000 2 5 0 0 = Ok tx /\
     bytearray.len (DMX_TX.channels tx) = 5 + 1 /\
     Forall (fun v => v = 0) (bytearray.items (DMX_TX.channels tx))) /\
  DMX_TX.__init__ 0x20001000 2 513 0 0 = Raise ValueError.
Proof.
  split.
  - apply (proj1 (tx_init_universe 0x20001000 2 5 0 0)). lia.
  - apply (proj2 (tx_init_universe 0x20001000 2 513 0 0)). lia.
Defined.

(** C10. On a transmitter on which [start] has never been called, [pause]
    raises [AttributeError] (the timer object [t] is created in [start]
    only) and leaves the transmitter as it was; once [start] has been
    called, [pause] returns normally, with the timer stopped and the timing
    engine inactive. *)
Theorem tx_pause_needs_start (py : runtime)
    (heap pin s statemachine dmachannel : Z) (tx0 : DMX_TX.obj)
    (es : list DMX_TX.event) :
  DMX_TX.__init__ heap pin s statemachine dmachannel = Ok tx0 ->
  (existsb is_start es = false ->
   DMX_TX.pause (DMX_TX.run py es tx0) =
     (Raise AttributeError, DMX_TX.run py es tx0)) /\
  (existsb is_start es = true ->
   exists tx' tm,
     DMX_TX.pause (DMX_TX.run py es tx0) = (Ok tt, tx') /\
     DMX_TX.t tx' = Some tm /\ Timer.running tm = false /\
     StateMachine.is_active (DMX_TX._sm tx') = false).
Proof.
  intros Hinit. apply tx_init_Ok in Hinit as (_ & _ & _ & Ht & _).
  pose proof (tx_run_t py es tx0) as Hrun.
  split; intros Hes.
  - assert (E : DMX_TX.t (DMX_TX.run py es tx0) = None) by (apply Hrun; auto).
    method. now rewrite E.
  - destruct (DMX_TX.t (DMX_TX.run py es tx0)) as [tm|] eqn:E.
    + exists (DMX_TX.set_sm (StateMachine.active false)
                (DMX_TX.set_t (Timer.deinit tm) (DMX_TX.run py es tx0))),
             (Timer.deinit tm).
      method. rewrite E. cbn. auto.
    + apply (tx_run_t py es tx0) in E as [_ E]. congruence.
Qed.

Lemma tx_pause_needs_start_witness :
  exists tx0,
    DMX_TX.__init__ 0x20001000 2 5 0 0 = Ok tx0 /\
    DMX_TX.pause (DMX_TX.run MicroPython [DMX_TX.Set_ 1 10; DMX_TX.Tick] tx0) =
      (Raise AttributeError,
       DMX_TX.run MicroPython [DMX_TX.Set_ 1 10; DMX_TX.Tick] tx0).
Proof.
  eexists. split; [reflexivity|].
  apply (proj1 (tx_pause_needs_start MicroPython 0x20001000 2 5 0 0 _
                  [DMX_TX.Set_ 1 10; DMX_TX.Tick] eq_refl)).
  reflexivity.
Defined.

Lemma tx_step_write_incr (py : runtime) (e : DMX_TX.event) (self : DMX_TX.obj) :
  dma.write_incr (DMX_TX._dma (DMX_TX.step py e self)) =
  dma.write_incr (DMX_TX._dma self).
Proof.
  destruct e; cbn [DMX_TX.step].
  - reflexivity.
  - method. now destruct (DMX_TX.t self).
  - method. now destruct (DMX_TX.timer_count self).
  - now rewrite tx_channel_pure.
  - rewrite tx_set_channel_eq. now destruct (bytearray.setitem _ _ _ _).
  - now rewrite tx_str_pure.
Qed.

Lemma tx_run_write_incr (py : runtime) (es : list DMX_TX.event) :
  forall self : DMX_TX.obj,
    dma.write_incr (DMX_TX._dma (DMX_TX.run py es self)) =
    dma.write_incr (DMX_TX._dma self).
Proof.
  induction es as [|e es IH]; intros self; [reflexivity|].
  cbn [DMX_TX.run fold_left]. fold (DMX_TX.run py es (DMX_TX.step py e self)).
  now rewrite IH, tx_step_write_incr.
Qed.



(** * The receiver *)

Lemma frames_nonneg (es : list DMX_RX.event) : 0 <= frames es.
Proof. induction es as [|[] es IH]; simpl; lia. Qed.

Lemma frames_app (es es' : list DMX_RX.event) :
  frames (es ++ es') = frames es + frames es'.
Proof. induction es as [|[] es IH]; simpl; lia. Qed.

(** Only the interrupt handler touches the frame counter. *)
Lemma rx_step_frames (py : runtime) (e : DMX_RX.event) (self : DMX_RX.obj) :
  DMX_RX.frames_received (DMX_RX.step py e self) =
  DMX_RX.frames_received self + frames [e].
Proof.
  destruct e; cbn [DMX_RX.step frames].
  - cbn. lia.
  - cbn. lia.
  - cbn. lia.
  - rewrite rx_channel_pure. cbn. lia.
  - rewrite rx_set_channel_eq.
    destruct (bytearray.setitem _ _ _ _); cbn; lia.
  - rewrite rx_str_pure. lia.
  - unfold DMX_RX.dma_byte.
    destruct (_ && _ && _); [|lia]. destruct (_ && _); cbn; lia.
  - unfold DMX_RX.dma_complete.
    destruct (dma.triggered (DMX_RX._dma self)); cbn; lia.
Qed.

Lemma rx_run_frames (py : runtime) (es : list DMX_RX.event) :
  forall self : DMX_RX.obj,
    DMX_RX.frames_received (DMX_RX.run py es self) =
    DMX_RX.frames_received self + frames es.
Proof.
  induction es as [|e es IH]; intros self.
  - cbn. lia.
  - cbn [DMX_RX.run fold_left].
    fold (DMX_RX.run py es (DMX_RX.step py e self)).
    rewrite IH, rx_step_frames.
    change (e :: es) with ([e] ++ es). rewrite frames_app. lia.
Qed.



(** The receiver's constructor has no size check: it returns an object for
    every [num_channels], with an empty universe when [num_channels] is
    negative. *)
Lemma rx_init_total (treq heap pin statemachine dmachannel n : Z) :
  exists rx,
    DMX_RX.__init__ treq heap pin statemachine dmachannel n = Ok rx /\
    bytearray.len (DMX_RX.channels rx) = Z.max 0 (n + 1).
Proof.
  eexists. split; [reflexivity|].
  unfold bytearray.len, bytearray.zeros; simpl.
  rewrite length_replicate. lia.
Qed.

(** C3, at the sizes 0 and 513, which lie outside 1..512: the
    transmitter's constructor raises the configuration error
    ([ValueError]), the receiver's constructor does not; it returns a
    receiver whose universe has 1 byte, respectively 514 bytes. *)
Theorem rx_init_accepts_invalid_size (treq heap pin statemachine dmachannel : Z) :
  DMX_TX.__init__ heap pin 0 statemachine dmachannel = Raise ValueError /\
  DMX_TX.__init__ heap pin 513 statemachine dmachannel = Raise ValueError /\
  (exists rx,
     DMX_RX.__init__ treq heap pin statemachine dmachannel 0 = Ok rx /\
     bytearray.len (DMX_RX.channels rx) = 1) /\
  (exists rx,
     DMX_RX.__init__ treq heap pin statemachine dmachannel 513 = Ok rx /\
     bytearray.len (DMX_RX.channels rx) = 514).
Proof.
  repeat split; try reflexivity; eexists; split; reflexivity.
Qed.

(** C7. On every running receiver whose frame counter reads [n], [pause]
    only deactivates the timing engine (the transfer engine, the universe
    and the counter stay as they are), and a following [start] activates
    it again with the counter still at [n]; the frames completed after
    that are counted on from [n]. *)
Theorem rx_pause_start_keeps_count (py : runtime) (rx : DMX_RX.obj) (n : Z) :
  StateMachine.is_active (DMX_RX._sm rx) = true ->
  DMX_RX.frames_received rx = n ->
  exists rx1 rx2,
    DMX_RX.pause rx = (Ok tt, rx1) /\
    rx1 = DMX_RX.set_sm (StateMachine.active false) rx /\
    StateMachine.is_active (DMX_RX._sm rx1) = false /\
    DMX_RX._dma rx1 = DMX_RX._dma rx /\
    DMX_RX.channels rx1 = DMX_RX.channels rx /\
    DMX_RX.frames_received rx1 = n /\
    DMX_RX.start rx1 = (Ok tt, rx2) /\
    StateMachine.is_active (DMX_RX._sm rx2) = true /\
    DMX_RX.frames_received rx2 = n /\
    forall es : list DMX_RX.event,
      DMX_RX.frames_received (DMX_RX.run py es rx2) = n + frames es.
Proof.
  intros _ Hn. eexists. eexists.
  split; [reflexivity|]. split; [reflexivity|].
  repeat (split; [first [reflexivity | exact Hn]|]).
  intros es. rewrite rx_run_frames. cbn. lia.
Qed.

Lemma rx_pause_start_keeps_count_witness :
  exists rx0 rx rx1 rx2,
    DMX_RX.__init__ 12 0x20002000 28 4 1 5 = Ok rx0 /\
    rx = DMX_RX.run MicroPython
           [DMX_RX.Start; DMX_RX.Irq; DMX_RX.Irq; DMX_RX.Irq] rx0 /\
    DMX_RX.frames_received rx = 3 /\
    DMX_RX.pause rx = (Ok tt, rx1) /\
    DMX_RX.start rx1 = (Ok tt, rx2) /\
    DMX_RX.frames_received rx2 = 3 /\
    DMX_RX.frames_received
      (DMX_RX.run MicroPython [DMX_RX.Irq; DMX_RX.Get 1; DMX_RX.Irq] rx2) = 5.
Proof.
  eexists. eexists.
  destruct (rx_pause_start_keeps_count MicroPython
              (DMX_RX.run MicroPython
                 [DMX_RX.Start; DMX_RX.Irq; DMX_RX.Irq; DMX_RX.Irq]
                 (DMX_RX.mk (bytearray.zeros 0x20002000 6)
                    (Pin.mk 28 Pin.IN None)
                    (Pin.mk 12 Pin.OUT (Some Pin.PULL_UP))
                    (StateMachine.irq
                       (StateMachine.new 4 StateMachine.dmx_in 1000000
                          (Some (Pin.mk 28 Pin.IN None))
                          (Some (Pin.mk 28 Pin.IN None))
                          (Some (Pin.mk 12 Pin.OUT (Some Pin.PULL_UP))) None))
                    0 (dma.SetTREQ 12 (dma.NoReadIncr (dma.new 1)))))
              3 eq_refl eq_refl)
    as (rx1 & rx2 & H1 & _ & _ & _ & _ & _ & H2 & _ & H3 & H4).
  exists rx1, rx2.
  split; [reflexivity|]. split; [reflexivity|]. split; [reflexivity|].
  split; [exact H1|]. split; [exact H2|]. split; [exact H3|].
  apply (H4 [DMX_RX.Irq; DMX_RX.Get 1; DMX_RX.Irq]).
Defined.

(** * The universe behind both drivers *)

Lemma driver_channels_universe (py : runtime) (heap s : Z) (b : bytearray.t) :
  driver_channels py heap s b -> 1 <= s <= 512 /\ universe heap (s + 1) b.
Proof.
  intros [(pin & sm & ch & tx0 & es & Hinit & ->)
         | (Hs & treq & pin & sm & ch & rx0 & es & Hinit & ->)].
  - apply tx_init_Ok in Hinit as (Hs & Hch & _). split; [assumption|].
    apply tx_run_universe. rewrite Hch. apply universe_zeros. lia.
  - apply rx_init_Ok in Hinit as (Hch & _). split; [assumption|].
    apply rx_run_universe. rewrite Hch. apply universe_zeros. lia.
Qed.

Lemma getitem_outside (b : bytearray.t) (i : Z) :
  i < - bytearray.len b \/ bytearray.len b <= i ->
  bytearray.getitem b i = Raise IndexError.
Proof.
  intros Hi. unfold bytearray.getitem. now rewrite get_index_outside.
Qed.

Lemma setitem_outside (py : runtime) (b : bytearray.t) (i v : Z) :
  i < - bytearray.len b \/ bytearray.len b <= i ->
  py = MicroPython \/ bytearray.is_byte v ->
  bytearray.setitem py b i v = Raise IndexError.
Proof.
  intros Hi Hv. destruct py; simpl.
  - destruct Hv as [|Hv]; [discriminate|].
    rewrite getbytevalue_byte by assumption. simpl.
    now rewrite get_index_outside.
  - now rewrite get_index_outside.
Qed.

Lemma getitem_from_end (b : bytearray.t) (i : Z) :
  - bytearray.len b <= i < 0 ->
  bytearray.getitem b i = bytearray.getitem b (i + bytearray.len b).
Proof.
  intros Hi. unfold bytearray.getitem.
  rewrite get_index_from_end by assumption.
  rewrite get_index_inside by lia. reflexivity.
Qed.

Lemma setitem_from_end (py : runtime) (b : bytearray.t) (i v : Z) :
  - bytearray.len b <= i < 0 ->
  bytearray.setitem py b i v = bytearray.setitem py b (i + bytearray.len b) v.
Proof.
  intros Hi. unfold bytearray.setitem.
  rewrite get_index_from_end by assumption.
  rewrite get_index_inside by lia. reflexivity.
Qed.

Lemma getitem_store_same (b : bytearray.t) (i v : Z) :
  0 <= i < bytearray.len b ->
  bytearray.getitem (bytearray.store b (Z.to_nat i) v) i = Ok v.
Proof.
  intros Hi. unfold bytearray.getitem.
  rewrite get_index_inside by (rewrite len_store; lia). simpl.
  rewrite list_lookup_insert_eq; [reflexivity|].
  unfold bytearray.len in Hi. lia.
Qed.

Lemma getitem_store_other (b : bytearray.t) (i j v : Z) :
  0 <= i < bytearray.len b -> 0 <= j < bytearray.len b -> j <> i ->
  bytearray.getitem (bytearray.store b (Z.to_nat i) v) j =
  bytearray.getitem b j.
Proof.
  intros Hi Hj Hne. unfold bytearray.getitem.
  rewrite !get_index_inside by (rewrite ?len_store; lia). simpl.
  rewrite list_lookup_insert_ne; [reflexivity|]. lia.
Qed.

(** C4, as the code has it.  In a universe of a driver built for [s]
    channels, reading item [i] and storing a byte at item [i] raise
    [IndexError] for every [i] above [s] and every [i] below [-(s+1)]
    (on MicroPython the store does so whatever the value).  A negative
    index from [-(s+1)] to [-1] does not fail: it counts from the end and
    stands for item [i+s+1]. *)
Theorem channels_index_error (py : runtime) (heap s : Z) (b : bytearray.t)
    (i : Z) :
  driver_channels py heap s b ->
  (i < - (s + 1) \/ s < i ->
   bytearray.getitem b i = Raise IndexError /\
   forall v, py = MicroPython \/ bytearray.is_byte v ->
             bytearray.setitem py b i v = Raise IndexError) /\
  (- (s + 1) <= i < 0 ->
   (exists v, bytearray.getitem b i = Ok v) /\
   bytearray.getitem b i = bytearray.getitem b (i + s + 1) /\
   forall v, bytearray.setitem py b i v =
             bytearray.setitem py b (i + s + 1) v).
Proof.
  intros Hb. apply driver_channels_universe in Hb as (Hs & Hu).
  pose proof Hu as (_ & Hl & _).
  split; intros Hi.
  - split.
    + apply getitem_outside. lia.
    + intros v Hv. apply setitem_outside; [lia | assumption].
  - assert (E : i + s + 1 = i + bytearray.len b) by lia.
    rewrite E. repeat split.
    + rewrite getitem_from_end by lia.
      destruct (universe_getitem heap (s + 1) b (i + bytearray.len b) Hu)
        as (v & Hv & _); [lia|]. eauto.
    + apply getitem_from_end. lia.
    + intros v. apply setitem_from_end. lia.
Qed.

Lemma channels_index_error_witness :
  bytearray.getitem (bytearray.zeros 0x20001000 6) 6 = Raise IndexError /\
  bytearray.setitem MicroPython (bytearray.zeros 0x20001000 6) (-7) 9 =
    Raise IndexError /\
  bytearray.getitem (bytearray.zeros 0x20001000 6) (-6) =
    bytearray.getitem (bytearray.zeros 0x20001000 6) (-6 + 5 + 1).
Proof.
  assert (Hb : driver_channels MicroPython 0x20001000 5
                 (bytearray.zeros 0x20001000 6)).
  { left. exists 2, 0, 0. eexists. exists []. split; reflexivity. }
  split; [|split].
  - apply (proj1 (channels_index_error MicroPython 0x20001000 5 _ 6 Hb)). lia.
  - apply (proj1 (channels_index_error MicroPython 0x20001000 5 _ (-7) Hb));
      [lia | left; reflexivity].
  - apply (proj2 (channels_index_error MicroPython 0x20001000 5 _ (-6) Hb)).
    lia.
Defined.

(** C4 as stated does not hold: in a fresh transmitter for 5 channels the
    index [-1] lies outside [0,5], yet reading it gives the last channel
    and storing at it changes the last channel. *)
Lemma negative_index_does_not_raise :
  exists tx0,
    DMX_TX.__init__ 0x20001000 2 5 0 0 = Ok tx0 /\
    (-1 < 0 \/ 5 < -1) /\
    DMX_TX.channel (-1) tx0 = (Ok 0, tx0) /\
    fst (DMX_TX.channel (-1) tx0) <> Raise IndexError /\
    fst (DMX_TX.set_channel MicroPython (-1) 50 tx0) = Ok tt /\
    fst (DMX_TX.set_channel CPython (-1) 50 tx0) = Ok tt /\
    bytearray.items
      (DMX_TX.channels (snd (DMX_TX.set_channel MicroPython (-1) 50 tx0))) =
      [0; 0; 0; 0; 0; 50].
Proof.
  eexists. split; [reflexivity|].
  split; [lia|]. split; [reflexivity|]. split; [discriminate|].
  repeat split; reflexivity.
Qed.

(** C8. In a universe of a driver built for [s] channels, storing a byte
    [v] at an index [i] from 0 to [s] succeeds, reading [i] afterwards
    gives [v], and every other index from 0 to [s] reads what it read
    before; the universe keeps its address and length. *)
Theorem channel_write_then_read (py : runtime) (heap s : Z) (b : bytearray.t)
    (i v : Z) :
  driver_channels py heap s b ->
  0 <= i <= s ->
  0 <= v <= 255 ->
  exists b',
    bytearray.setitem py b i v = Ok b' /\
    bytearray.getitem b' i = Ok v /\
    (forall j, 0 <= j <= s -> j <> i ->
               bytearray.getitem b' j = bytearray.getitem b j) /\
    bytearray.items b' = <[Z.to_nat i := v]> (bytearray.items b) /\
    bytearray.addr b' = bytearray.addr b /\
    bytearray.len b' = bytearray.len b.
Proof.
  intros Hb Hi Hv. apply driver_channels_universe in Hb as (Hs & _ & Hl & _).
  exists (bytearray.store b (Z.to_nat i) v). split.
  - apply setitem_byte; [exact Hv|]. apply get_index_inside. lia.
  - split; [apply getitem_store_same; lia|].
    split; [|split; [reflexivity|split; [reflexivity|apply len_store]]].
    intros j Hj Hne. apply getitem_store_other; lia.
Qed.

Lemma channel_write_then_read_witness :
  exists b b',
    driver_channels MicroPython 0x20001000 5 b /\
    bytearray.setitem MicroPython b 3 30 = Ok b' /\
    bytearray.getitem b' 3 = Ok 30 /\
    bytearray.getitem b' 1 = bytearray.getitem b 1.
Proof.
  assert (Hb : driver_channels MicroPython 0x20001000 5
                 (bytearray.mk 0x20001000 [0; 10; 0; 0; 0; 0])).
  { left. exists 2, 0, 0. eexists. exists [DMX_TX.Set_ 1 10].
    split; reflexivity. }
  destruct (channel_write_then_read MicroPython 0x20001000 5 _ 3 30 Hb
              ltac:(lia) ltac:(lia)) as (b' & H1 & H2 & H3 & _).
  exists (bytearray.mk 0x20001000 [0; 10; 0; 0; 0; 0]), b'.
  split; [exact Hb|]. split; [exact H1|]. split; [exact H2|].
  apply H3; lia.
Defined.

(** C6. The universe of a driver built for [s] channels has [s+1] items,
    each from 0 to 255, at the address it was given: the constructors
    establish this, every event of either driver (a method call, an item
    access, a timer tick, a frame interrupt, a byte stored by the transfer
    engine) preserves it, and so in every state reached, also in the
    middle of a frame, each index from 0 to [s] reads a value from 0 to
    255. *)
Theorem universe_invariant (py : runtime)
    (treq heap pin statemachine dmachannel s : Z) :
  (forall tx0,
     DMX_TX.__init__ heap pin s statemachine dmachannel = Ok tx0 ->
     universe heap (s + 1) (DMX_TX.channels tx0)) /\
  (1 <= s <= 512 ->
   forall rx0,
     DMX_RX.__init__ treq heap pin statemachine dmachannel s = Ok rx0 ->
     universe heap (s + 1) (DMX_RX.channels rx0)) /\
  (forall e tx,
     universe heap (s + 1) (DMX_TX.channels tx) ->
     universe heap (s + 1) (DMX_TX.channels (DMX_TX.step py e tx))) /\
  (forall e rx,
     universe heap (s + 1) (DMX_RX.channels rx) ->
     universe heap (s + 1) (DMX_RX.channels (DMX_RX.step py e rx))) /\
  (forall b,
     driver_channels py heap s b ->
     bytearray.len b = s + 1 /\
     Forall (fun v => 0 <= v <= 255) (bytearray.items b) /\
     forall i, 0 <= i <= s ->
               exists v, bytearray.getitem b i = Ok v /\ 0 <= v <= 255).
Proof.
  split; [|split; [|split; [|split]]].
  - intros tx0 (Hs & -> & _)%tx_init_Ok. apply universe_zeros. lia.
  - intros Hs rx0 (-> & _)%rx_init_Ok. apply universe_zeros. lia.
  - intros e tx. apply tx_step_universe.
  - intros e rx. apply rx_step_universe.
  - intros b (Hs & Hu)%driver_channels_universe.
    pose proof Hu as (_ & Hl & Hb).
    split; [assumption|]. split; [assumption|].
    intros i Hi. apply (universe_getitem heap (s + 1)); [assumption | lia].
Qed.

Lemma universe_invariant_witness :
  exists b,
    driver_channels MicroPython 0x20002000 5 b /\
    bytearray.items b = [0; 77; 0; 44; 0; 0] /\
    bytearray.len b = 5 + 1 /\
    Forall (fun v => 0 <= v <= 255) (bytearray.items b).
Proof.
  assert (Hb : driver_channels MicroPython 0x20002000 5
                 (bytearray.mk 0x20002000 [0; 77; 0; 44; 0; 0])).
  { right. split; [lia|]. exists 12, 28, 4, 1. eexists.
    exists [DMX_RX.Start; DMX_RX.Dma 1 77; DMX_RX.Get 1; DMX_RX.Dma 3 300;
            DMX_RX.Set_ 9 1].
    split; reflexivity. }
  destruct (proj2 (proj2 (proj2 (proj2
              (universe_invariant MicroPython 12 0x20002000 28 4 1 5))))
              _ Hb) as (H1 & H2 & _).
  eexists. split; [exact Hb|]. split; [reflexivity|]. split; assumption.
Defined.

(** The transfer engine of a receiver stays inside the universe: whenever
    a transfer is armed, it is armed at the base of the universe for
    exactly its length, with an incrementing destination. *)
Lemma rx_step_in_bounds (py : runtime) (e : DMX_RX.event) (self : DMX_RX.obj) :
  dma.write_incr (DMX_RX._dma self) = true /\ DMX_RX.dma_in_bounds self ->
  dma.write_incr (DMX_RX._dma (DMX_RX.step py e self)) = true /\
  DMX_RX.dma_in_bounds (DMX_RX.step py e self).
Proof.
  unfold DMX_RX.dma_in_bounds. intros [Hw Hin].
  destruct e; cbn [DMX_RX.step].
  - cbn. auto.
  - cbn. auto.
  - cbn. auto.
  - rewrite rx_channel_pure. auto.
  - rewrite rx_set_channel_eq.
    destruct (bytearray.setitem _ _ _ _) as [b'|] eqn:Hs; cbn; [|auto].
    apply setitem_Ok in Hs as (k & x & _ & _ & ->).
    rewrite len_store. auto.
  - rewrite rx_str_pure. auto.
  - unfold DMX_RX.dma_byte.
    destruct (_ && _ && _); [|auto]. destruct (_ && _); cbn; [|auto].
    rewrite len_store. auto.
  - unfold DMX_RX.dma_complete.
    destruct (dma.triggered (DMX_RX._dma self)) eqn:Ht; cbn;
      (split; [exact Hw|]); [discriminate | rewrite Ht; discriminate].
Qed.

Lemma rx_run_in_bounds (py : runtime) (es : list DMX_RX.event) :
  forall self : DMX_RX.obj,
    dma.write_incr (DMX_RX._dma self) = true /\ DMX_RX.dma_in_bounds self ->
    dma.write_incr (DMX_RX._dma (DMX_RX.run py es self)) = true /\
    DMX_RX.dma_in_bounds (DMX_RX.run py es self).
Proof.
  induction es as [|e es IH]; intros self H; [exact H|].
  apply IH. now apply rx_step_in_bounds.
Qed.

(** So a byte the transfer engine moves always lands on item [k] of the
    universe, never beside it. *)
Lemma rx_dma_byte_lands (py : runtime)
    (treq heap pin statemachine dmachannel n : Z) (rx0 : DMX_RX.obj)
    (es : list DMX_RX.event) (k w : Z) :
  DMX_RX.__init__ treq heap pin statemachine dmachannel n = Ok rx0 ->
  let rx := DMX_RX.run py es rx0 in
  DMX_RX.dma_byte k w rx = rx \/
  0 <= k < bytearray.len (DMX_RX.channels rx) /\
  DMX_RX.dma_byte k w rx =
    DMX_RX.set_channels
      (bytearray.store (DMX_RX.channels rx) (Z.to_nat k) (w mod 256)) rx.
Proof.
  intros Hinit rx.
  assert (H : dma.write_incr (DMX_RX._dma rx) = true /\
              DMX_RX.dma_in_bounds rx).
  { apply rx_run_in_bounds. injection Hinit as <-. split; [reflexivity|].
    unfold DMX_RX.dma_in_bounds. cbn. discriminate. }
  destruct H as [Hw Hin]. unfold DMX_RX.dma_byte.
  destruct (dma.triggered (DMX_RX._dma rx)) eqn:Ht; [|now left].
  destruct (Hin Ht) as [Ha Hc]. rewrite Hw, Ha, Hc. cbn [andb].
  destruct (Z.leb_spec 0 k); [|now left].
  destruct (Z.ltb_spec k (bytearray.len (DMX_RX.channels rx))); [|now left].
  cbn [andb].
  replace (bytearray.addr (DMX_RX.channels rx) + k
           - bytearray.addr (DMX_RX.channels rx)) with k by lia.
  destruct (Z.leb_spec 0 k); [|lia].
  destruct (Z.ltb_spec k (bytearray.len (DMX_RX.channels rx))); [|lia].
  right. split; [lia | reflexivity].
Qed.

(** * The diagnostic dump *)

(** The transmitter's dump of a fresh universe of 512 channels: it begins
    with the start code line and a blank line, every twentieth channel
    opens a row headed by its three-digit index, every fifth value is
    set off by two more spaces, and a blank line follows each hundredth
    channel. *)
Lemma tx_str_fresh_512 :
  dump_has (tx_dump 512 [])
    (String.prefix
       ("Start code: 0" ++ nl ++ nl ++
        "001:     0   0   0   0   0     0   0   0   0   0" ++
        "     0   0   0   0   0     0   0   0   0   0" ++ nl ++ "021:"))
    = true /\
  dump_has (tx_dump 512 [])
    (fun s => forallb
       (fun k => occurs (nl ++ fmt_03 (20 * Z.of_nat k + 1) ++ ":   ") s)
       (seq 0 26)) = true /\
  dump_has (tx_dump 512 [])
    (fun s => forallb
       (fun k => occurs ("   0" ++ nl ++ nl ++
                         fmt_03 (100 * Z.of_nat k + 1) ++ ":") s)
       (seq 1 5)) = true.
Proof.
  split; [vm_compute; reflexivity|].
  split; vm_compute; reflexivity.
Qed.

(** C9, where the code departs from it.  A transmitter and a receiver for
    6 channels holding the same universe [0,255,255,7,100,1,2] do not
    print the same dump: the transmitter puts a space before each value,
    the receiver does not, so that its values run together.  The two dumps
    of a fresh universe of 512 channels both begin with the start code
    line, and differ as well. *)
Theorem str_layouts_differ :
  tx_items 6 [DMX_TX.Set_ 1 255; DMX_TX.Set_ 2 255; DMX_TX.Set_ 3 7;
              DMX_TX.Set_ 4 100; DMX_TX.Set_ 5 1; DMX_TX.Set_ 6 2] =
    Ok [0; 255; 255; 7; 100; 1; 2] /\
  rx_items 6 [DMX_RX.Start; DMX_RX.Dma 1 255; DMX_RX.Dma 2 255;
              DMX_RX.Dma 3 7; DMX_RX.Dma 4 100; DMX_RX.Dma 5 1;
              DMX_RX.Dma 6 2; DMX_RX.Irq] =
    Ok [0; 255; 255; 7; 100; 1; 2] /\
  tx_dump 6 [DMX_TX.Set_ 1 255; DMX_TX.Set_ 2 255; DMX_TX.Set_ 3 7;
             DMX_TX.Set_ 4 100; DMX_TX.Set_ 5 1; DMX_TX.Set_ 6 2] =
    Ok ("Start code: 0" ++ nl ++ nl ++
        "001:   255 255   7 100   1     2" ++ nl)%string /\
  rx_dump 6 [DMX_RX.Start; DMX_RX.Dma 1 255; DMX_RX.Dma 2 255;
             DMX_RX.Dma 3 7; DMX_RX.Dma 4 100; DMX_RX.Dma 5 1;
             DMX_RX.Dma 6 2; DMX_RX.Irq] =
    Ok ("Start code: 0" ++ nl ++ nl ++
        "001:  255255  7100  1    2" ++ nl)%string /\
  tx_items 512 [] = rx_items 512 [] /\
  dump_has (tx_dump 512 []) (String.prefix "Start code: 0") = true /\
  dump_has (rx_dump 512 []) (String.prefix "Start code: 0") = true /\
  dump_length (tx_dump 512 []) = 2404%nat /\
  dump_length (rx_dump 512 []) = 1892%nat /\
  tx_dump 512 [] <> rx_dump 512 [].
Proof.
  assert (Htx : dump_length (tx_dump 512 []) = 2404%nat)
    by (vm_compute; reflexivity).
  assert (Hrx : dump_length (rx_dump 512 []) = 1892%nat)
    by (vm_compute; reflexivity).
  do 7 (split; [vm_compute; reflexivity|]).
  split; [exact Htx|]. split; [exact Hrx|].
  intros E. rewrite E in Htx. rewrite Htx in Hrx. clear E Htx.
  discriminate Hrx.
Qed.

(** * Further properties of the transmitter *)

Lemma tx_ticks (py : runtime) (k : nat) :
  forall (tx : DMX_TX.obj) (n : Z),
    DMX_TX.timer_count tx = Some n ->
    DMX_TX.timer_count (DMX_TX.run py (replicate k DMX_TX.Tick) tx) =
      Some (n + Z.of_nat k) /\
    DMX_TX.t (DMX_TX.run py (replicate k DMX_TX.Tick) tx) = DMX_TX.t tx /\
    DMX_TX.channels (DMX_TX.run py (replicate k DMX_TX.Tick) tx) =
      DMX_TX.channels tx.
Proof.
  induction k as [|k IH]; intros tx n Hn.
  - cbn. rewrite Hn. repeat split. f_equal. lia.
  - cbn [replicate DMX_TX.run fold_left].
    fold (DMX_TX.run py (replicate k DMX_TX.Tick) (DMX_TX.step py DMX_TX.Tick tx)).
    destruct (IH (DMX_TX.step py DMX_TX.Tick tx) (n + 1)) as (H1 & H2 & H3).
    { cbn. method. rewrite Hn. reflexivity. }
    rewrite H1, H2, H3. cbn. method. rewrite Hn. cbn.
    repeat split. f_equal. lia.
Qed.

(** [start] begins the count of ticks anew, whatever the transmitter went
    through before: after [start(period)] and [k] ticks the tick counter
    reads [k], the timer is the one [start] made, and the universe is what
    it was before [start]. *)
Theorem tx_start_counts_from_zero (py : runtime) (tx : DMX_TX.obj)
    (period : Z) (k : nat) :
  DMX_TX.timer_count
    (DMX_TX.run py (DMX_TX.Start period :: replicate k DMX_TX.Tick) tx) =
    Some (Z.of_nat k) /\
  DMX_TX.t
    (DMX_TX.run py (DMX_TX.Start period :: replicate k DMX_TX.Tick) tx) =
    Some (Timer.new period) /\
  DMX_TX.channels
    (DMX_TX.run py (DMX_TX.Start period :: replicate k DMX_TX.Tick) tx) =
    DMX_TX.channels tx.
Proof.
  cbn [DMX_TX.run fold_left].
  fold (DMX_TX.run py (replicate k DMX_TX.Tick)
          (DMX_TX.step py (DMX_TX.Start period) tx)).
  destruct (tx_ticks py k (DMX_TX.step py (DMX_TX.Start period) tx) 0)
    as (H1 & H2 & H3); [reflexivity|].
  rewrite H1, H2, H3. repeat split.
Qed.

(** The tick counter exists exactly when [start] was called before. *)
Lemma tx_step_timer_count (py : runtime) (e : DMX_TX.event)
    (self : DMX_TX.obj) :
  DMX_TX.timer_count (DMX_TX.step py e self) = None <->
  DMX_TX.timer_count self = None /\ is_start e = false.
Proof.
  destruct e; cbn [DMX_TX.step is_start].
  - cbn. intuition discriminate.
  - method. destruct (DMX_TX.t self); cbn; intuition.
  - method. destruct (DMX_TX.timer_count self) eqn:E; cbn; [|rewrite E];
      intuition discriminate.
  - rewrite tx_channel_pure. cbn. intuition.
  - rewrite tx_set_channel_eq.
    destruct (bytearray.setitem _ _ _ _); cbn; intuition.
  - rewrite tx_str_pure. intuition.
Qed.

Lemma tx_run_timer_count (py : runtime) (es : list DMX_TX.event) :
  forall self : DMX_TX.obj,
    DMX_TX.timer_count (DMX_TX.run py es self) = None <->
    DMX_TX.timer_count self = None /\ existsb is_start es = false.
Proof.
  induction es as [|e es IH]; intros self; cbn [DMX_TX.run fold_left existsb].
  - intuition.
  - fold (DMX_TX.run py es (DMX_TX.step py e self)).
    rewrite IH, tx_step_timer_count, orb_false_iff. intuition.
Qed.

(** A tick on a transmitter that was never started raises
    [AttributeError], because [timer_count] is assigned in [start] only;
    but the exception comes last: by then the timing engine has been
    activated and restarted and the transfer of the [s+1] bytes has been
    armed.  The universe and the missing counter stay as they were. *)
Theorem tx_restart_before_start (py : runtime)
    (heap pin s statemachine dmachannel : Z) (tx0 : DMX_TX.obj)
    (es : list DMX_TX.event) :
  DMX_TX.__init__ heap pin s statemachine dmachannel = Ok tx0 ->
  existsb is_start es = false ->
  exists tx',
    DMX_TX.restart (DMX_TX.run py es tx0) = (Raise AttributeError, tx') /\
    StateMachine.is_active (DMX_TX._sm tx') = true /\
    StateMachine.restarts (DMX_TX._sm tx') =
      S (StateMachine.restarts (DMX_TX._sm (DMX_TX.run py es tx0))) /\
    dma.triggered (DMX_TX._dma tx') = true /\
    dma.read_addr (DMX_TX._dma tx') = heap /\
    dma.count (DMX_TX._dma tx') = s + 1 /\
    DMX_TX.timer_count tx' = None /\
    DMX_TX.channels tx' = DMX_TX.channels (DMX_TX.run py es tx0).
Proof.
  intros Hinit Hes.
  pose proof Hinit as (Hs & Hch & Htc0 & _)%tx_init_Ok.
  assert (Hu : universe heap (s + 1)
                 (DMX_TX.channels (DMX_TX.run py es tx0))).
  { apply tx_run_universe. rewrite Hch. apply universe_zeros. lia. }
  destruct Hu as (Ha & Hl & _).
  assert (E : DMX_TX.timer_count (DMX_TX.run py es tx0) = None).
  { apply tx_run_timer_count. auto. }
  eexists. method. rewrite E. cbn. repeat split; auto.
Qed.

Lemma tx_restart_before_start_witness :
  exists tx0 tx',
    DMX_TX.__init__ 0x20001000 2 5 0 0 = Ok tx0 /\
    DMX_TX.restart (DMX_TX.run MicroPython [DMX_TX.Set_ 1 10] tx0) =
      (Raise AttributeError, tx') /\
    StateMachine.is_active (DMX_TX._sm tx') = true /\
    dma.count (DMX_TX._dma tx') = 5 + 1.
Proof.
  eexists.
  destruct (tx_restart_before_start MicroPython 0x20001000 2 5 0 0 _
              [DMX_TX.Set_ 1 10] eq_refl eq_refl)
    as (tx' & H1 & H2 & _ & _ & _ & H3 & _).
  exists tx'. split; [reflexivity|]. split; [exact H1|]. split; assumption.
Defined.

(** [pause] on a transmitter whose timer object exists returns normally,
    stops the timer and deactivates the timing engine, and keeps the tick
    counter, the universe and the transfer engine as they are; pausing
    again changes nothing more. *)
Theorem tx_pause_idempotent (tx : DMX_TX.obj) (tm : Timer.t) :
  DMX_TX.t tx = Some tm ->
  exists tx1,
    DMX_TX.pause tx = (Ok tt, tx1) /\
    DMX_TX.t tx1 = Some (Timer.mk (Timer.period tm) false) /\
    StateMachine.is_active (DMX_TX._sm tx1) = false /\
    DMX_TX.timer_count tx1 = DMX_TX.timer_count tx /\
    DMX_TX.channels tx1 = DMX_TX.channels tx /\
    DMX_TX._dma tx1 = DMX_TX._dma tx /\
    DMX_TX.pause tx1 = (Ok tt, tx1).
Proof.
  intros Ht. eexists. method. rewrite Ht. cbn.
  split; [reflexivity|]. repeat split.
Qed.

Lemma tx_pause_idempotent_witness :
  exists tx0 tx1,
    DMX_TX.__init__ 0x20001000 2 5 0 0 = Ok tx0 /\
    DMX_TX.pause
      (DMX_TX.run MicroPython [DMX_TX.Start 50; DMX_TX.Tick] tx0) =
      (Ok tt, tx1) /\
    DMX_TX.timer_count tx1 = Some 1 /\
    DMX_TX.pause tx1 = (Ok tt, tx1).
Proof.
  eexists.
  destruct (tx_pause_idempotent
              (DMX_TX.run MicroPython [DMX_TX.Start 50; DMX_TX.Tick]
                 (DMX_TX.mk (bytearray.zeros 0x20001000 (5 + 1))
                    (Pin.mk 2 Pin.OUT (Some Pin.PULL_UP))
                    (StateMachine.new 0 StateMachine.dmx_out 1000000 None None
                       (Some (Pin.mk 2 Pin.OUT (Some Pin.PULL_UP)))
                       (Some (Pin.mk 2 Pin.OUT (Some Pin.PULL_UP))))
                    (dma.SetTREQ 0 (dma.NoWriteIncr (dma.new 0))) None None))
              (Timer.new 50) eq_refl)
    as (tx1 & H1 & _ & _ & H2 & _ & _ & H3).
  exists tx1. split; [reflexivity|]. split; [exact H1|].
  split; [rewrite H2; reflexivity | exact H3].
Defined.

Lemma tx_step_channels_congr (py : runtime) (e : DMX_TX.event)
    (tx tx' : DMX_TX.obj) :
  DMX_TX.channels tx = DMX_TX.channels tx' ->
  DMX_TX.channels (DMX_TX.step py e tx) =
  DMX_TX.channels (if is_set e then DMX_TX.step py e tx' else tx').
Proof.
  intros E. destruct e; cbn [DMX_TX.step is_set].
  - exact E.
  - method. now destruct (DMX_TX.t tx).
  - method. now destruct (DMX_TX.timer_count tx).
  - now rewrite tx_channel_pure.
  - rewrite !tx_set_channel_eq, E.
    now destruct (bytearray.setitem _ _ _ _).
  - now rewrite tx_str_pure.
Qed.

(** Transmission never writes the universe: after any run of events the
    universe of a transmitter is what the item assignments of that run
    alone would have made of it; [start], [pause], the ticks, the reads and
    the dumps leave no trace in it. *)
Theorem tx_universe_written_by_application_only (py : runtime)
    (es : list DMX_TX.event) (tx : DMX_TX.obj) :
  DMX_TX.channels (DMX_TX.run py es tx) =
  DMX_TX.channels (DMX_TX.run py (List.filter is_set es) tx).
Proof.
  enough (G : forall tx' : DMX_TX.obj,
             DMX_TX.channels tx = DMX_TX.channels tx' ->
             DMX_TX.channels (DMX_TX.run py es tx) =
             DMX_TX.channels (DMX_TX.run py (List.filter is_set es) tx'))
    by (now apply G).
  revert tx. induction es as [|e es IH]; intros tx tx' E; [exact E|].
  cbn [DMX_TX.run fold_left List.filter].
  fold (DMX_TX.run py es (DMX_TX.step py e tx)).
  pose proof (tx_step_channels_congr py e tx tx' E) as E'.
  destruct (is_set e).
  - cbn [DMX_TX.run fold_left].
    fold (DMX_TX.run py (List.filter is_set es) (DMX_TX.step py e tx')).
    now apply IH.
  - now apply IH.
Qed.

(** The transfer a transmitter has armed. *)
Lemma tx_step_armed (py : runtime) (e : DMX_TX.event) (self : DMX_TX.obj) :
  (dma.triggered (DMX_TX._dma self) = true ->
   dma.read_addr (DMX_TX._dma self) = bytearray.addr (DMX_TX.channels self) /\
   dma.write_addr (DMX_TX._dma self) = PIO0_TXF0 /\
   dma.count (DMX_TX._dma self) = bytearray.len (DMX_TX.channels self)) ->
  dma.triggered (DMX_TX._dma (DMX_TX.step py e self)) = true ->
  dma.read_addr (DMX_TX._dma (DMX_TX.step py e self)) =
    bytearray.addr (DMX_TX.channels (DMX_TX.step py e self)) /\
  dma.write_addr (DMX_TX._dma (DMX_TX.step py e self)) = PIO0_TXF0 /\
  dma.count (DMX_TX._dma (DMX_TX.step py e self)) =
    bytearray.len (DMX_TX.channels (DMX_TX.step py e self)).
Proof.
  intros H. destruct e; cbn [DMX_TX.step].
  - exact H.
  - method. destruct (DMX_TX.t self); exact H.
  - method. destruct (DMX_TX.timer_count self); cbn; auto.
  - rewrite tx_channel_pure. exact H.
  - rewrite tx_set_channel_eq.
    destruct (bytearray.setitem _ _ _ _) as [b'|] eqn:Hs; cbn; [|exact H].
    apply setitem_Ok in Hs as (k & x & _ & _ & ->).
    rewrite len_store. exact H.
  - rewrite tx_str_pure. exact H.
Qed.

Lemma tx_run_armed (py : runtime) (es : list DMX_TX.event) :
  forall self : DMX_TX.obj,
    (dma.triggered (DMX_TX._dma self) = true ->
     dma.read_addr (DMX_TX._dma self) = bytearray.addr (DMX_TX.channels self) /\
     dma.write_addr (DMX_TX._dma self) = PIO0_TXF0 /\
     dma.count (DMX_TX._dma self) = bytearray.len (DMX_TX.channels self)) ->
    dma.triggered (DMX_TX._dma (DMX_TX.run py es self)) = true ->
    dma.read_addr (DMX_TX._dma (DMX_TX.run py es self)) =
      bytearray.addr (DMX_TX.channels (DMX_TX.run py es self)) /\
    dma.write_addr (DMX_TX._dma (DMX_TX.run py es self)) = PIO0_TXF0 /\
    dma.count (DMX_TX._dma (DMX_TX.run py es self)) =
      bytearray.len (DMX_TX.channels (DMX_TX.run py es self)).
Proof.
  induction es as [|e es IH]; intros self H; [exact H|].
  apply IH. now apply tx_step_armed.
Qed.

(** Whatever a transmitter goes through, a transfer it has armed reads
    exactly its universe, the [s+1] bytes from the base of the bytearray
    and not one more, and delivers every byte to the one queue address
    (the destination does not increment, the source does). *)
Theorem tx_transfer_reads_the_universe (py : runtime)
    (heap pin s statemachine dmachannel : Z) (tx0 : DMX_TX.obj)
    (es : list DMX_TX.event) :
  DMX_TX.__init__ heap pin s statemachine dmachannel = Ok tx0 ->
  dma.triggered (DMX_TX._dma (DMX_TX.run py es tx0)) = true ->
  dma.read_addr (DMX_TX._dma (DMX_TX.run py es tx0)) = heap /\
  dma.count (DMX_TX._dma (DMX_TX.run py es tx0)) = s + 1 /\
  bytearray.len (DMX_TX.channels (DMX_TX.run py es tx0)) = s + 1 /\
  dma.write_addr (DMX_TX._dma (DMX_TX.run py es tx0)) = PIO0_TXF0 /\
  dma.write_incr (DMX_TX._dma (DMX_TX.run py es tx0)) = false /\
  dma.read_incr (DMX_TX._dma (DMX_TX.run py es tx0)) = true.
Proof.
  intros Hinit Harmed.
  pose proof Hinit as (Hs & Hch & _ & _ & Hdma)%tx_init_Ok.
  assert (Hu : universe heap (s + 1)
                 (DMX_TX.channels (DMX_TX.run py es tx0))).
  { apply tx_run_universe. rewrite Hch. apply universe_zeros. lia. }
  destruct Hu as (Ha & Hl & _).
  destruct (tx_run_armed py es tx0) as (H1 & H2 & H3); [|assumption|].
  { rewrite Hdma. cbn. discriminate. }
  assert (Hr : forall es' self,
             dma.read_incr (DMX_TX._dma (DMX_TX.run py es' self)) =
             dma.read_incr (DMX_TX._dma self)).
  { induction es' as [|e es' IH]; intros self; [reflexivity|].
    cbn [DMX_TX.run fold_left].
    fold (DMX_TX.run py es' (DMX_TX.step py e self)). rewrite IH.
    destruct e; cbn [DMX_TX.step].
    - reflexivity.
    - method. now destruct (DMX_TX.t self).
    - method. now destruct (DMX_TX.timer_count self).
    - now rewrite tx_channel_pure.
    - rewrite tx_set_channel_eq. now destruct (bytearray.setitem _ _ _ _).
    - now rewrite tx_str_pure. }
  rewrite H1, H2, H3, Ha, Hl, tx_run_write_incr, Hr, Hdma.
  repeat split.
Qed.

Lemma tx_transfer_reads_the_universe_witness :
  exists tx0 tx,
    DMX_TX.__init__ 0x20001000 2 5 0 0 = Ok tx0 /\
    tx = DMX_TX.run MicroPython
           [DMX_TX.Start 50; DMX_TX.Tick; DMX_TX.Set_ 2 9; DMX_TX.Pause] tx0 /\
    dma.triggered (DMX_TX._dma tx) = true /\
    dma.read_addr (DMX_TX._dma tx) = 0x20001000 /\
    dma.count (DMX_TX._dma tx) = 5 + 1.
Proof.
  eexists. eexists. split; [reflexivity|]. split; [reflexivity|].
  split; [reflexivity|].
  destruct (tx_transfer_reads_the_universe MicroPython 0x20001000 2 5 0 0 _
              [DMX_TX.Start 50; DMX_TX.Tick; DMX_TX.Set_ 2 9; DMX_TX.Pause]
              eq_refl eq_refl) as (H1 & H2 & _).
  split; assumption.
Defined.

(** * Further properties of the receiver *)

(** Whatever a receiver goes through, and whatever size it was built with,
    a transfer it has armed is armed at the base of its universe for
    exactly the length of the universe, with an incrementing destination;
    so a byte the transfer engine moves is stored on an item of the
    universe, the [k]-th, and never beside it. *)
Theorem rx_transfer_stays_inside (py : runtime)
    (treq heap pin statemachine dmachannel n : Z) (rx0 : DMX_RX.obj)
    (es : list DMX_RX.event) :
  DMX_RX.__init__ treq heap pin statemachine dmachannel n = Ok rx0 ->
  (dma.triggered (DMX_RX._dma (DMX_RX.run py es rx0)) = true ->
   dma.write_addr (DMX_RX._dma (DMX_RX.run py es rx0)) =
     bytearray.addr (DMX_RX.channels (DMX_RX.run py es rx0)) /\
   dma.count (DMX_RX._dma (DMX_RX.run py es rx0)) =
     bytearray.len (DMX_RX.channels (DMX_RX.run py es rx0)) /\
   dma.write_incr (DMX_RX._dma (DMX_RX.run py es rx0)) = true) /\
  (forall k w,
     DMX_RX.dma_byte k w (DMX_RX.run py es rx0) = DMX_RX.run py es rx0 \/
     0 <= k < bytearray.len (DMX_RX.channels (DMX_RX.run py es rx0)) /\
     DMX_RX.dma_byte k w (DMX_RX.run py es rx0) =
       DMX_RX.set_channels
         (bytearray.store (DMX_RX.channels (DMX_RX.run py es rx0))
            (Z.to_nat k) (w mod 256))
         (DMX_RX.run py es rx0)).
Proof.
  intros Hinit. split.
  - intros Harmed.
    destruct (rx_run_in_bounds py es rx0) as [Hw Hin].
    { injection Hinit as <-. split; [reflexivity|].
      unfold DMX_RX.dma_in_bounds. cbn. discriminate. }
    destruct (Hin Harmed) as [Ha Hc]. auto.
  - intros k w.
    exact (rx_dma_byte_lands py treq heap pin statemachine dmachannel n rx0
             es k w Hinit).
Qed.

Lemma rx_transfer_stays_inside_witness :
  exists rx0 rx,
    DMX_RX.__init__ 12 0x20002000 28 4 1 5 = Ok rx0 /\
    rx = DMX_RX.run MicroPython [DMX_RX.Start; DMX_RX.Dma 1 77; DMX_RX.Pause]
           rx0 /\
    dma.count (DMX_RX._dma rx) = bytearray.len (DMX_RX.channels rx) /\
    DMX_RX.dma_byte 6 1 rx = rx.
Proof.
  eexists. eexists. split; [reflexivity|]. split; [reflexivity|].
  destruct (rx_transfer_stays_inside MicroPython 12 0x20002000 28 4 1 5 _
              [DMX_RX.Start; DMX_RX.Dma 1 77; DMX_RX.Pause] eq_refl)
    as [H1 H2].
  split.
  - apply H1. reflexivity.
  - destruct (H2 6 1) as [H | [H _]]; [exact H|].
    vm_compute in H. destruct H as [_ H]. discriminate H.
Defined.



(** The frame counter of a receiver counts the interrupts since it was
    built, and nothing else: it starts at 0, and [start], [pause], reads,
    writes, dumps and the bytes of the transfer engine never move it.  So
    it is never negative, and [frame_count] never fails. *)
Theorem rx_frame_count_is_interrupt_count (py : runtime)
    (treq heap pin statemachine dmachannel n : Z) (rx0 : DMX_RX.obj)
    (es : list DMX_RX.event) :
  DMX_RX.__init__ treq heap pin statemachine dmachannel n = Ok rx0 ->
  DMX_RX.frame_count (DMX_RX.run py es rx0) =
    (Ok (frames es), DMX_RX.run py es rx0) /\
  0 <= frames es.
Proof.
  intros (_ & H0 & _)%rx_init_Ok. split; [|apply frames_nonneg].
  method. rewrite rx_run_frames, H0. reflexivity.
Qed.

Lemma rx_frame_count_is_interrupt_count_witness :
  exists rx0 rx,
    DMX_RX.__init__ 12 0x20002000 28 4 1 5 = Ok rx0 /\
    rx = DMX_RX.run MicroPython
           [DMX_RX.Start; DMX_RX.Irq; DMX_RX.Get 1; DMX_RX.Irq;
            DMX_RX.Pause; DMX_RX.Start; DMX_RX.Irq] rx0 /\
    DMX_RX.frame_count rx = (Ok 3, rx).
Proof.
  eexists. eexists. split; [reflexivity|]. split; [reflexivity|].
  exact (proj1 (rx_frame_count_is_interrupt_count MicroPython 12 0x20002000
                  28 4 1 5 _
                  [DMX_RX.Start; DMX_RX.Irq; DMX_RX.Get 1; DMX_RX.Irq;
                   DMX_RX.Pause; DMX_RX.Start; DMX_RX.Irq] eq_refl)).
Defined.

(** A receiver built with a negative number of channels has an empty
    universe, and keeps it: no index at all can be read from it, [start]
    arms a transfer of no bytes and tells the timing engine a frame
    length of -1. *)
Theorem rx_negative_size_empty_universe (py : runtime)
    (treq heap pin statemachine dmachannel n : Z) (es : list DMX_RX.event) :
  n <= -1 ->
  exists rx0,
    DMX_RX.__init__ treq heap pin statemachine dmachannel n = Ok rx0 /\
    bytearray.items (DMX_RX.channels (DMX_RX.run py es rx0)) = [] /\
    (forall i, DMX_RX.channel i (DMX_RX.run py es rx0) =
               (Raise IndexError, DMX_RX.run py es rx0)) /\
    dma.count (DMX_RX._dma (snd (DMX_RX.start (DMX_RX.run py es rx0)))) = 0 /\
    StateMachine.fifo (DMX_RX._sm (snd (DMX_RX.start (DMX_RX.run py es rx0)))) =
      StateMachine.fifo (DMX_RX._sm (DMX_RX.run py es rx0)) ++ [-1].
Proof.
  intros Hn. eexists. split; [reflexivity|].
  match goal with
  | |- context [DMX_RX.run py es ?r] => set (rx0 := r)
  end.
  assert (Hu : universe heap 0 (DMX_RX.channels (DMX_RX.run py es rx0))).
  { apply rx_run_universe. subst rx0. cbn [DMX_RX.channels].
    unfold universe, bytearray.len, bytearray.zeros. cbn.
    replace (Z.to_nat (n + 1)) with 0%nat by lia. cbn.
    split; [reflexivity|]. split; [reflexivity | constructor]. }
  destruct Hu as (_ & Hl & _).
  assert (Hi : bytearray.items (DMX_RX.channels (DMX_RX.run py es rx0)) = []).
  { unfold bytearray.len in Hl.
    destruct (bytearray.items (DMX_RX.channels (DMX_RX.run py es rx0)));
      [reflexivity | cbn in Hl; lia]. }
  split; [exact Hi|]. split.
  - intros i. rewrite rx_channel_pure. f_equal.
    apply getitem_outside. lia.
  - method. rewrite Hl. split; reflexivity.
Qed.

Lemma rx_negative_size_empty_universe_witness :
  exists rx0,
    DMX_RX.__init__ 12 0x20002000 28 4 1 (-3) = Ok rx0 /\
    bytearray.items
      (DMX_RX.channels (DMX_RX.run MicroPython [DMX_RX.Start; DMX_RX.Dma 0 9] rx0))
      = [] /\
    DMX_RX.channel 0 (DMX_RX.run MicroPython [DMX_RX.Start; DMX_RX.Dma 0 9] rx0) =
      (Raise IndexError,
       DMX_RX.run MicroPython [DMX_RX.Start; DMX_RX.Dma 0 9] rx0).
Proof.
  destruct (rx_negative_size_empty_universe MicroPython 12 0x20002000 28 4 1
              (-3) [DMX_RX.Start; DMX_RX.Dma 0 9] ltac:(lia))
    as (rx0 & H1 & H2 & H3 & _).
  exists rx0. split; [exact H1|]. split; [exact H2 | exact (H3 0)].
Defined.

(** The methods of a receiver never write its universe: over a run of
    [start], [pause], frame interrupts, reads and dumps, with no item
    assignment and no byte from the transfer engine, the universe stays
    what it was. *)
Theorem rx_methods_leave_universe (py : runtime) (es : list DMX_RX.event) :
  forall rx : DMX_RX.obj,
    existsb is_store es = false ->
    DMX_RX.channels (DMX_RX.run py es rx) = DMX_RX.channels rx.
Proof.
  induction es as [|e es IH]; intros rx Hes; [reflexivity|].
  cbn [existsb] in Hes. apply orb_false_iff in Hes as [He Hes].
  cbn [DMX_RX.run fold_left]. fold (DMX_RX.run py es (DMX_RX.step py e rx)).
  rewrite (IH _ Hes).
  destruct (rx_step_channels py e rx)
    as [H | [(i & v & b' & -> & _) | (k & w & off & -> & _)]];
    [exact H | discriminate He | discriminate He].
Qed.

Lemma rx_methods_leave_universe_witness :
  exists rx0,
    DMX_RX.__init__ 12 0x20002000 28 4 1 5 = Ok rx0 /\
    DMX_RX.channels
      (DMX_RX.run MicroPython
         [DMX_RX.Start; DMX_RX.Irq; DMX_RX.Pause; DMX_RX.Get 9; DMX_RX.Str]
         rx0) = DMX_RX.channels rx0.
Proof.
  eexists. split; [reflexivity|].
  apply (rx_methods_leave_universe MicroPython
           [DMX_RX.Start; DMX_RX.Irq; DMX_RX.Pause; DMX_RX.Get 9; DMX_RX.Str]).
  reflexivity.
Defined.

(** * Further properties of the dump *)

Lemma append_assoc (a b c : string) :
  ((a ++ b) ++ c = a ++ (b ++ c))%string.
Proof. induction a as [|x a IH]; cbn; [reflexivity | now rewrite IH]. Qed.

Lemma append_empty_r (a : string) : (a ++ "" = a)%string.
Proof. induction a as [|x a IH]; cbn; [reflexivity | now rewrite IH]. Qed.

Lemma length_append (a b : string) :
  String.length (a ++ b) = (String.length a + String.length b)%nat.
Proof. induction a as [|x a IH]; cbn; [reflexivity | now rewrite IH]. Qed.

Lemma getitem_middle (b : bytearray.t) (pre vs : list Z) (v : Z) :
  bytearray.items b = pre ++ v :: vs ->
  bytearray.getitem b (Z.of_nat (List.length pre)) = Ok v.
Proof.
  intros Hb. unfold bytearray.getitem.
  rewrite get_index_inside.
  - cbn. rewrite Nat2Z.id, Hb.
    now rewrite (list_lookup_middle pre vs v (List.length pre) eq_refl).
  - unfold bytearray.len. rewrite Hb, length_app. cbn. lia.
Qed.

Lemma tx_str_body_cell (b : bytearray.t) (res : string) (chan v : Z) :
  1 <= chan -> bytearray.getitem b chan = Ok v ->
  DMX_TX.str_body b res chan = Ok (res ++ tx_cell chan v)%string.
Proof.
  intros Hc Hv. unfold DMX_TX.str_body, tx_cell, row_head, row_tail.
  rewrite Hv. cbn [result_bind].
  destruct (Z.eqb_spec chan 0); [lia|].
  destruct (chan mod 20 =? 1), (chan mod 5 =? 1), (chan mod 100 =? 0);
    cbn [append]; rewrite ?append_assoc, ?append_empty_r; reflexivity.
Qed.

Lemma rx_str_body_cell (b : bytearray.t) (res : string) (chan v : Z) :
  1 <= chan -> bytearray.getitem b chan = Ok v ->
  DMX_RX.str_body b res chan = Ok (res ++ rx_cell chan v)%string.
Proof.
  intros Hc Hv. unfold DMX_RX.str_body, rx_cell, row_head, row_tail.
  rewrite Hv. cbn [result_bind].
  destruct (Z.eqb_spec chan 0); [lia|].
  destruct (chan mod 20 =? 1), (chan mod 5 =? 1), (chan mod 100 =? 0);
    cbn [append]; rewrite ?append_assoc, ?append_empty_r; reflexivity.
Qed.

Lemma for_range_cells (b : bytearray.t) (body : string -> Z -> result string)
    (cell : Z -> Z -> string) :
  (forall res chan v,
     1 <= chan -> bytearray.getitem b chan = Ok v ->
     body res chan = Ok (res ++ cell chan v)%string) ->
  forall (vs pre : list Z) (acc : string),
    bytearray.items b = pre ++ vs ->
    (1 <= List.length pre)%nat ->
    for_range body (Z.of_nat (List.length pre)) (List.length vs) acc =
      Ok (acc ++ cells cell (Z.of_nat (List.length pre)) vs)%string.
Proof.
  intros Hbody. induction vs as [|v vs IH]; intros pre acc Hb Hpre.
  - cbn. now rewrite append_empty_r.
  - cbn [List.length for_range cells].
    rewrite (Hbody acc _ v); [|lia|now apply getitem_middle with (vs := vs)].
    cbn [result_bind].
    replace (Z.of_nat (List.length pre) + 1)
      with (Z.of_nat (List.length (pre ++ [v])))
      by (rewrite length_app; cbn; lia).
    rewrite IH.
    + now rewrite append_assoc.
    + now rewrite <- app_assoc.
    + rewrite length_app. lia.
Qed.

Lemma str_first_pass (b : bytearray.t) (v0 : Z) (vs : list Z) :
  bytearray.items b = v0 :: vs ->
  DMX_TX.str_body b EmptyString 0 = Ok ("Start code: " ++ str_int v0 ++ nl)%string /\
  DMX_RX.str_body b EmptyString 0 = Ok ("Start code: " ++ str_int v0 ++ nl)%string.
Proof.
  intros Hb.
  assert (Hv : bytearray.getitem b 0 = Ok v0).
  { apply (getitem_middle b [] vs v0). exact Hb. }
  unfold DMX_TX.str_body, DMX_RX.str_body. rewrite Hv. cbn [result_bind].
  change (0 mod 20 =? 1) with false. change (0 mod 5 =? 1) with false.
  change (0 =? 0) with true. change (0 mod 100 =? 0) with true. cbn iota.
  rewrite append_assoc. split; reflexivity.
Qed.

(** The dump never fails and changes nothing, whatever state the driver is
    in, and its text is the layout read channel by channel: the start code
    line, then for every channel its cell (the row head with the
    three-digit index every twentieth channel, two spaces every fifth, the
    value in a field of three, a line break every hundredth), then a line
    break.  The transmitter puts a space before each value, the receiver
    does not.  The dump of an empty universe is one line break. *)
Theorem str_is_the_layout (tx : DMX_TX.obj) (rx : DMX_RX.obj) :
  DMX_TX.__str__ tx =
    (Ok (layout tx_cell (bytearray.items (DMX_TX.channels tx))), tx) /\
  DMX_RX.__str__ rx =
    (Ok (layout rx_cell (bytearray.items (DMX_RX.channels rx))), rx).
Proof.
  split.
  - method. unfold bytearray.len. rewrite Nat2Z.id.
    destruct (bytearray.items (DMX_TX.channels tx)) as [|v0 vs] eqn:Hb;
      [reflexivity|].
    cbn [List.length for_range layout].
    rewrite (proj1 (str_first_pass _ v0 vs Hb)). cbn [result_bind].
    rewrite (for_range_cells (DMX_TX.channels tx) _ tx_cell
               (tx_str_body_cell (DMX_TX.channels tx)) vs [v0] _ Hb);
      [|cbn; lia].
    cbn [List.length Z.of_nat Pos.of_succ_nat]. rewrite !append_assoc.
    reflexivity.
  - method. unfold bytearray.len. rewrite Nat2Z.id.
    destruct (bytearray.items (DMX_RX.channels rx)) as [|v0 vs] eqn:Hb;
      [reflexivity|].
    cbn [List.length for_range layout].
    rewrite (proj2 (str_first_pass _ v0 vs Hb)). cbn [result_bind].
    rewrite (for_range_cells (DMX_RX.channels rx) _ rx_cell
               (rx_str_body_cell (DMX_RX.channels rx)) vs [v0] _ Hb);
      [|cbn; lia].
    cbn [List.length Z.of_nat Pos.of_succ_nat]. rewrite !append_assoc.
    reflexivity.
Qed.

Lemma cells_length_gap (vs : list Z) :
  forall chan : Z,
    String.length (cells tx_cell chan vs) =
    (String.length (cells rx_cell chan vs) + List.length vs)%nat.
Proof.
  induction vs as [|v vs IH]; intros chan; [reflexivity|].
  cbn [cells List.length]. unfold tx_cell at 1, rx_cell at 1.
  rewrite !length_append, IH. cbn [String.length]. lia.
Qed.

(** For equal universes the transmitter's dump is longer than the
    receiver's by exactly one character for each channel, the space the
    receiver leaves out before every value; so the two dumps agree only
    when there is no channel to print. *)
Theorem str_length_gap (tx : DMX_TX.obj) (rx : DMX_RX.obj) :
  bytearray.items (DMX_TX.channels tx) = bytearray.items (DMX_RX.channels rx) ->
  exists s_tx s_rx,
    DMX_TX.__str__ tx = (Ok s_tx, tx) /\
    DMX_RX.__str__ rx = (Ok s_rx, rx) /\
    String.length s_tx =
      (String.length s_rx + printed_channels (DMX_RX.channels rx))%nat /\
    (s_tx = s_rx <-> printed_channels (DMX_RX.channels rx) = 0%nat).
Proof.
  intros E. destruct (str_is_the_layout tx rx) as [Htx Hrx].
  rewrite E in Htx.
  exists (layout tx_cell (bytearray.items (DMX_RX.channels rx))),
         (layout rx_cell (bytearray.items (DMX_RX.channels rx))).
  split; [exact Htx|]. split; [exact Hrx|].
  unfold printed_channels.
  destruct (bytearray.items (DMX_RX.channels rx)) as [|v0 vs].
  - cbn. split; [reflexivity | tauto].
  - assert (L : String.length (layout tx_cell (v0 :: vs)) =
                (String.length (layout rx_cell (v0 :: vs)) + List.length vs)%nat).
    { cbn [layout]. rewrite !length_append, cells_length_gap. lia. }
    split; [exact L|]. cbn [List.length Nat.pred]. split.
    + intros H. rewrite H in L. lia.
    + intros H. destruct vs; [reflexivity | discriminate H].
Qed.

Lemma str_length_gap_witness :
  exists tx rx s_tx s_rx,
    DMX_TX.__init__ 0x20001000 2 5 0 0 = Ok tx /\
    DMX_RX.__init__ 12 0x20002000 28 4 1 5 = Ok rx /\
    DMX_TX.__str__ tx = (Ok s_tx, tx) /\
    DMX_RX.__str__ rx = (Ok s_rx, rx) /\
    String.length s_tx = (String.length s_rx + 5)%nat.
Proof.
  eexists. eexists.
  destruct (str_length_gap
              (DMX_TX.mk (bytearray.zeros 0x20001000 (5 + 1))
                 (Pin.mk 2 Pin.OUT (Some Pin.PULL_UP))
                 (StateMachine.new 0 StateMachine.dmx_out 1000000 None None
                    (Some (Pin.mk 2 Pin.OUT (Some Pin.PULL_UP)))
                    (Some (Pin.mk 2 Pin.OUT (Some Pin.PULL_UP))))
                 (dma.SetTREQ 0 (dma.NoWriteIncr (dma.new 0))) None None)
              (DMX_RX.mk (bytearray.zeros 0x20002000 (5 + 1))
                 (Pin.mk 28 Pin.IN None)
                 (Pin.mk 12 Pin.OUT (Some Pin.PULL_UP))
                 (StateMachine.irq
                    (StateMachine.new 4 StateMachine.dmx_in 1000000
                       (Some (Pin.mk 28 Pin.IN None))
                       (Some (Pin.mk 28 Pin.IN None))
                       (Some (Pin.mk 12 Pin.OUT (Some Pin.PULL_UP))) None))
                 0 (dma.SetTREQ 12 (dma.NoReadIncr (dma.new 1))))
              eq_refl)
    as (s_tx & s_rx & H1 & H2 & H3 & _).
  exists s_tx, s_rx.
  split; [reflexivity|]. split; [reflexivity|].
  split; [exact H1|]. split; [exact H2 | exact H3].
Defined.

(** * The polling loop *)

Lemma rx_run_app (py : runtime) (es es' : list DMX_RX.event)
    (self : DMX_RX.obj) :
  DMX_RX.run py (es ++ es') self = DMX_RX.run py es' (DMX_RX.run py es self).
Proof. unfold DMX_RX.run. apply fold_left_app. Qed.

Lemma bind_interrupted {A} (py : runtime) (hw : list DMX_RX.event)
    (k : unit -> M DMX_RX.obj A) (self : DMX_RX.obj) :
  bind (interrupted py hw) k self = k tt (DMX_RX.run py hw self).
Proof. reflexivity. Qed.

Lemma bind_channel {A} (heap n i : Z) (k : Z -> M DMX_RX.obj A)
    (self : DMX_RX.obj) :
  universe heap n (DMX_RX.channels self) -> 0 <= i < n ->
  exists v, bind (DMX_RX.channel i) k self = k v self.
Proof.
  intros Hu Hi. destruct (universe_getitem heap n _ i Hu Hi) as (v & Hv & _).
  exists v. unfold bind. now rewrite rx_channel_pure, Hv.
Qed.

Ltac read_channel U :=
  match goal with
  | |- context [bind (DMX_RX.channel ?i) ?k ?s] =>
      let v := fresh "v" in
      destruct (bind_channel _ _ i k s U ltac:(lia)) as [v ->]
  end.

(** One pass over a universe of at least six items reads without failing;
    it prints exactly when the frame counter, read last, is not the one
    remembered, and remembers the one it read. *)
Lemma test_rx_pass_spec (py : runtime) (hw : nat -> list DMX_RX.event)
    (heap n last_frame : Z) (self : DMX_RX.obj) :
  6 <= n ->
  universe heap n (DMX_RX.channels self) ->
  exists last' out,
    test_rx_pass py hw 0 last_frame self =
      (Ok (last', out), DMX_RX.run py (pass_events hw) self) /\
    last' = DMX_RX.frames_received (DMX_RX.run py (pass_events hw) self) /\
    (out = None <-> last' = last_frame).
Proof.
  intros Hn U. unfold pass_events. rewrite !rx_run_app.
  unfold test_rx_pass.
  rewrite bind_interrupted.
  pose proof (rx_run_universe py heap n (hw 0%nat) _ U) as U0.
  read_channel U0.
  rewrite bind_interrupted.
  pose proof (rx_run_universe py heap n (hw 1%nat) _ U0) as U1.
  read_channel U1.
  rewrite bind_interrupted.
  pose proof (rx_run_universe py heap n (hw 2%nat) _ U1) as U2.
  read_channel U2.
  rewrite bind_interrupted.
  pose proof (rx_run_universe py heap n (hw 3%nat) _ U2) as U3.
  read_channel U3.
  rewrite bind_interrupted.
  pose proof (rx_run_universe py heap n (hw 4%nat) _ U3) as U4.
  read_channel U4.
  rewrite bind_interrupted.
  pose proof (rx_run_universe py heap n (hw 5%nat) _ U4) as U5.
  read_channel U5.
  rewrite bind_interrupted.
  unfold bind, DMX_RX.frame_count, gets, ret.
  match goal with
  | |- context [DMX_RX.frames_received ?s =? last_frame] =>
      destruct (Z.eqb_spec (DMX_RX.frames_received s) last_frame) as [E|E]
  end; cbn [negb].
  - exists last_frame, None. rewrite E. intuition.
  - eexists. eexists. split; [reflexivity|]. split; [reflexivity|].
    split; [discriminate | intros E'; contradiction].
Qed.

Lemma test_rx_loop_spec (py : runtime) (heap n : Z)
    (sched : list (nat -> list DMX_RX.event)) :
  6 <= n ->
  forall (last_frame : Z) (self : DMX_RX.obj),
    universe heap n (DMX_RX.channels self) ->
    last_frame <= DMX_RX.frames_received self ->
    snd (test_rx_loop py sched 0 last_frame self) = None /\
    (List.length (fst (test_rx_loop py sched 0 last_frame self))
       <= List.length sched)%nat /\
    Z.of_nat (List.length (fst (test_rx_loop py sched 0 last_frame self))) <=
      DMX_RX.frames_received self + frames (sched_events sched) - last_frame /\
    (last_frame < DMX_RX.frames_received self -> sched <> [] ->
     fst (test_rx_loop py sched 0 last_frame self) <> []).
Proof.
  intros Hn. induction sched as [|hw sched IH]; intros last_frame self U Hl.
  - cbn. split; [reflexivity|]. split; [lia|]. split; [lia|].
    intros _ H. now contradiction H.
  - cbn [test_rx_loop].
    destruct (test_rx_pass_spec py hw heap n last_frame self Hn U)
      as (last' & out & -> & Hlast & Hout).
    pose proof (rx_run_universe py heap n (pass_events hw) self U) as U'.
    pose proof (rx_run_frames py (pass_events hw) self) as Hf.
    pose proof (frames_nonneg (pass_events hw)) as Hp.
    destruct (IH last' (DMX_RX.run py (pass_events hw) self) U' ltac:(lia))
      as (H1 & H2 & H3 & _).
    destruct (test_rx_loop py sched 0 last'
                (DMX_RX.run py (pass_events hw) self)) as [lines e].
    cbn [fst snd] in *.
    unfold sched_events. cbn [map List.concat]. fold (sched_events sched).
    rewrite frames_app.
    split; [exact H1|].
    destruct out as [l|]; cbn [List.length];
      [assert (last' <> last_frame)
         by (intros E; apply Hout in E; discriminate)
      |assert (last' = last_frame) by (now apply Hout)];
      (split; [lia|]); (split; [lia|]); intros Hlt _;
      first [discriminate | lia].
Qed.

(** [test_rx] never fails, whatever the interrupt handler and the transfer
    engine do while it polls: every read lies inside the universe of 513
    bytes.  It prints at its first pass, at most one line per pass, and at
    most one line more than frames were completed: frames completed
    between two passes are counted but shown once. *)
Theorem test_rx_prints_once_per_new_frame (py : runtime) (treq heap : Z)
    (sched : list (nat -> list DMX_RX.event)) :
  snd (test_rx py treq heap sched) = None /\
  (List.length (fst (test_rx py treq heap sched)) <= List.length sched)%nat /\
  Z.of_nat (List.length (fst (test_rx py treq heap sched))) <=
    1 + frames (sched_events sched) /\
  (sched <> [] -> fst (test_rx py treq heap sched) <> []).
Proof.
  unfold test_rx. cbn [DMX_RX.__init__].
  match goal with
  | |- context [DMX_RX.start ?r] =>
      set (rx0 := r); change (DMX_RX.start rx0) with (Ok tt, snd (DMX_RX.start rx0))
  end.
  cbn iota.
  assert (U : universe heap 513 (DMX_RX.channels (snd (DMX_RX.start rx0)))).
  { apply (universe_zeros heap 513). lia. }
  assert (F : DMX_RX.frames_received (snd (DMX_RX.start rx0)) = 0)
    by reflexivity.
  destruct (test_rx_loop_spec py heap 513 sched ltac:(lia) (-1)
              (snd (DMX_RX.start rx0)) U ltac:(lia)) as (H1 & H2 & H3 & H4).
  rewrite F in H3, H4.
  split; [exact H1|]. split; [exact H2|]. split; [lia|].
  intros Hs. apply H4; [lia | exact Hs].
Qed.

Lemma test_rx_prints_once_per_new_frame_witness :
  fst (test_rx MicroPython 12 0x20002000
         [fun k => match k with
                   | 3%nat => [DMX_RX.Dma 1 200; DMX_RX.Irq]
                   | _ => []
                   end;
          fun _ => []]) <> [] /\
  test_rx MicroPython 12 0x20002000
    [fun k => match k with
              | 3%nat => [DMX_RX.Dma 1 200; DMX_RX.Irq]
              | _ => []
              end;
     fun _ => []] =
  (["Received fader:0  R:0 G:0 B:0 B:0 B:0"%string], None).
Proof.
  split.
  - apply (proj2 (proj2 (proj2
             (test_rx_prints_once_per_new_frame MicroPython 12 0x20002000 _)))).
    discriminate.
  - vm_compute. reflexivity.
Defined.
